(** * Calculator.tsx: request orchestrator and clipboard serializer

    A shallow embedding of [src/app/components/Calculator.tsx]:

    - [Number]: JavaScript number values (IEEE 754 binary64, through the
      Standard Library's executable [SpecFloat]) with the conversions the
      component uses: [Number::toString] (template literals) and
      [Number.prototype.toFixed].
    - [Serializer]: [formatResultForCopy] with its local helpers
      [formatNumber] and [calculateGain].
    - [Orchestrator]: the component's state ([loading], [result], [error],
      [copied]), the asynchronous handlers [handleSubmit] and [handleCopy]
      written in a small monad of suspended computations, the effect on
      [selectedStock], and the browser's event loop running them.
    - [Lines]: what splitting the copied text at its line feeds gives.
    - [View]: the element that the component returns for a state, as a
      tree of elements, components of other files and text.
    - [Lifecycle]: what each event does to the requests in flight and to
      what is shown, the component used one call at a time, and the
      answers of two overlapping calls in any order.

    What the host decides (the locale of [toLocaleString], the text of the
    engine's [TypeError] messages, the clock behind [getDefaultDate]) is a
    field of the record [Host].

    The response of [/api/stock] is untyped ([json] is [any]): it ranges
    over every JSON value, and the stored result is whatever [json.data]
    was. The serializer is read at its declared parameter type
    [StockAnalysisResult], each numeric field ranging over
    [number | null | undefined] with the coercions of JavaScript.

    A call of an [async] function runs without interruption up to its next
    [await]; between two events of the event loop ([handle]) the state is
    what a render shows. Calls carry the identifier they were given when
    they started, so that two requests in flight can settle in any order.

    The facts come after all definitions: the digits of [toFixed], then the
    serializer, then the component (one call of [handleSubmit], the
    invariant of the reachable worlds, the effect, [handleCopy], and two
    calls at once), then the copied text read back and its edge cases, the
    life of a request and of a copy, and the page. *)

From stdpp Require Import gmap strings list.
From Stdlib Require Import ZArith Ascii String Floats.SpecFloat.

Local Open Scope string_scope.
Local Open Scope Z_scope.

(** ** Decimal digit strings *)

Module Digits.

Definition digit (d : Z) : ascii := ascii_of_nat (48 + Z.to_nat d).

(** The decimal digits of [n >= 0], most significant first, in front of
    [acc]; [fuel] bounds the number of digits. *)
Fixpoint digits_acc (fuel : nat) (n : Z) (acc : string) : string :=
  match fuel with
  | O => acc
  | S fuel' =>
      let acc' := String (digit (n mod 10)) acc in
      if n <? 10 then acc' else digits_acc fuel' (n / 10) acc'
  end.

(** A number below [2 ^ k] has at most [k] decimal digits (and 0 has one). *)
Definition decimal (n : Z) : string :=
  digits_acc (S (Z.to_nat (Z.log2 n))) n "".

Definition zeros (k : nat) : string := String.concat "" (replicate k "0").

Definition is_digit (c : ascii) : bool :=
  let n := nat_of_ascii c in (48 <=? n)%nat && (n <=? 57)%nat.

Fixpoint all_digits (s : string) : bool :=
  match s with
  | EmptyString => true
  | String c s' => is_digit c && all_digits s'
  end.

(** The number a digit string denotes (read left to right). *)
Fixpoint value_acc (s : string) (acc : Z) : Z :=
  match s with
  | EmptyString => acc
  | String c s' => value_acc s' (10 * acc + (Z.of_nat (nat_of_ascii c) - 48))
  end.

Definition value (s : string) : Z := value_acc s 0.

(** [s.slice(0, n)] and [s.slice(n)]. *)
Fixpoint take (n : nat) (s : string) : string :=
  match n, s with
  | S n', String c s' => String c (take n' s')
  | _, _ => ""
  end.

Fixpoint drop (n : nat) (s : string) : string :=
  match n, s with
  | S n', String c s' => drop n' s'
  | _, _ => s
  end.

End Digits.

(** ** JavaScript numbers *)

Module Number.
Import Digits.

(** A Number is an IEEE 754 binary64 value. *)
Definition number : Type := spec_float.

Definition prec : Z := 53.
Definition emax : Z := 1024.

Definition NaN : number := S754_nan.

(** The Number of an integer literal. *)
Definition of_Z (z : Z) : number := binary_normalize prec emax z 0 false.

(** SameValue(x, y): the same Number value ([NaN] is itself, the two zeros
    differ). *)
Definition SameValue (x y : number) : bool :=
  match x, y with
  | S754_nan, S754_nan => true
  | S754_zero s, S754_zero s' => Bool.eqb s s'
  | S754_infinity s, S754_infinity s' => Bool.eqb s s'
  | S754_finite s m e, S754_finite s' m' e' =>
      Bool.eqb s s' && (m =? m')%positive && (e =? e')
  | _, _ => false
  end.

(** [x - y], [x / y], [x * y]. *)
Definition sub (x y : number) : number := SFsub prec emax x y.
Definition div (x y : number) : number := SFdiv prec emax x y.
Definition mul (x y : number) : number := SFmul prec emax x y.

(** The Number nearest to the rational [p / q] ([p, q > 0]), ties to even. *)
Definition of_ratio (p q : Z) : number :=
  let '(mz, ez, lz) := SFdiv_core_binary prec emax p 0 q 0 in
  binary_round_aux prec emax false mz ez lz.

(** The magnitude [m * 2 ^ e] as a fraction [(p, q)] of integers. *)
Definition fraction (m : positive) (e : Z) : Z * Z :=
  if 0 <=? e then (Z.pos m * 2 ^ e, 1) else (Z.pos m, 2 ^ (- e)).

(** [p / q * 10 ^ a], rounded down. *)
Definition scale_floor (p q a : Z) : Z :=
  if 0 <=? a then (p * 10 ^ a) / q else p / (q * 10 ^ (- a)).

(** The Number nearest to [c * 10 ^ a]. *)
Definition of_decimal (c a : Z) : number :=
  if 0 <=? a then of_Z (c * 10 ^ a) else of_ratio c (10 ^ (- a)).

(** *** Number::toString

    ECMA-262, Number::toString(x, 10): the digits [s] (there are [k] of
    them) and the exponent [n] with [k] as small as possible such that
    [s * 10 ^ (n - k)] converts back to [x]; among several [s] the one
    nearest to [x], and the even one of two. *)

(** The [n] with [10 ^ (n - 1) <= p / q < 10 ^ n]. *)
Fixpoint leading_zeros (fuel : nat) (p q : Z) (j : Z) : Z :=
  match fuel with
  | O => j
  | S fuel' => if q <=? p * 10 ^ j then j else leading_zeros fuel' p q (j + 1)
  end.

Definition decimal_exponent (p q : Z) : Z :=
  if q <=? p then Z.of_nat (String.length (decimal (p / q)))
  else 1 - leading_zeros (S (Z.to_nat (Z.log2 q))) p q 1.

(** The two numbers of [k] digits around [p / q], and which is nearer. *)
Definition below (p q n0 k : Z) : Z := scale_floor p q (k - n0).

Definition nearer_below (p q n0 k : Z) : bool :=
  let a := k - n0 in
  let lo := below p q n0 k in
  (* compares 2 * (p / q) * 10 ^ a with lo + (lo + 1) *)
  let lhs := if 0 <=? a then 2 * p * 10 ^ a else 2 * p in
  let rhs := if 0 <=? a then (2 * lo + 1) * q else (2 * lo + 1) * q * 10 ^ (- a) in
  match lhs ?= rhs with
  | Lt => true
  | Gt => false
  | Eq => Z.even lo
  end.

(** The digits [c] with the exponent: [10 ^ k] is written [1] followed by
    zeros. *)
Definition digits_exponent (n0 k c : Z) : Z * Z :=
  if c =? 10 ^ k then (10 ^ (k - 1), n0 + 1) else (c, n0).

Definition nearest (p q n0 k : Z) : Z * Z :=
  let lo := below p q n0 k in
  digits_exponent n0 k (if nearer_below p q n0 k then lo else lo + 1).

(** The digits of length [k], if some convert back to [x]. *)
Definition candidate (x : number) (p q n0 k : Z) : option (Z * Z) :=
  let lo := below p q n0 k in
  let back c := SameValue (of_decimal c (n0 - k)) x in
  match back lo, back (lo + 1) with
  | true, true => Some (nearest p q n0 k)
  | true, false => Some (digits_exponent n0 k lo)
  | false, true => Some (digits_exponent n0 k (lo + 1))
  | false, false => None
  end.

(** The shortest digits, from [k] digits on; after [fuel] lengths the
    nearest digits of the next length are taken. *)
Fixpoint shortest (fuel : nat) (x : number) (p q n0 k : Z) : Z * Z :=
  match fuel with
  | O => nearest p q n0 k
  | S fuel' =>
      match candidate x p q n0 k with
      | Some sn => sn
      | None => shortest fuel' x p q n0 (k + 1)
      end
  end.

(** Steps 7 to 11: the digits laid out in fixed or exponential notation. *)
Definition layout (s n : Z) : string :=
  let ds := decimal s in
  let k := Z.of_nat (String.length ds) in
  if (k <=? n) && (n <=? 21) then ds +:+ zeros (Z.to_nat (n - k))
  else if (0 <? n) && (n <=? 21) then
    take (Z.to_nat n) ds +:+ "." +:+ drop (Z.to_nat n) ds
  else if (-6 <? n) && (n <=? 0) then "0." +:+ zeros (Z.to_nat (- n)) +:+ ds
  else
    let e := n - 1 in
    let exponent := (if e <? 0 then "-" else "+") +:+ decimal (Z.abs e) in
    if k =? 1 then ds +:+ "e" +:+ exponent
    else take 1 ds +:+ "." +:+ drop 1 ds +:+ "e" +:+ exponent.

(** Lengths 1 to 16 are tried; seventeen digits identify every binary64
    value. *)
Definition toString_positive (m : positive) (e : Z) : string :=
  let x := binary_normalize prec emax (Z.pos m) e false in
  let '(p, q) := fraction m e in
  let '(s, n) := shortest 16 x p q (decimal_exponent p q) 1 in
  layout s n.

Definition toString (x : number) : string :=
  match x with
  | S754_nan => "NaN"
  | S754_zero _ => "0"
  | S754_infinity s => if s then "-Infinity" else "Infinity"
  | S754_finite s m e => (if s then "-" else "") +:+ toString_positive m e
  end.

(** *** Number.prototype.toFixed

    ECMA-262, Number.prototype.toFixed(fractionDigits): the integer [n]
    for which [n / 10 ^ f - x] is as close to zero as possible, the larger
    of two; its digits, padded with zeros to [f + 1] of them, with a point
    before the last [f]. *)

Definition round_half_up (p q f : Z) : Z := (2 * p * 10 ^ f + q) / (2 * q).

Definition fixed_digits (n : Z) (f : nat) : string :=
  let m := decimal n in
  let k := String.length m in
  let m := if (k <=? f)%nat then zeros (f + 1 - k) +:+ m else m in
  let k := String.length m in
  if (f =? 0)%nat then m else take (k - f) m +:+ "." +:+ drop (k - f) m.

Definition toFixed (x : number) (fractionDigits : nat) : string :=
  match x with
  | S754_nan => "NaN"
  | S754_infinity s => if s then "-Infinity" else "Infinity"
  | S754_zero _ => fixed_digits 0 fractionDigits
  | S754_finite s m e =>
      let '(p, q) := fraction m e in
      (if s then "-" else "") +:+
      (if 10 ^ 21 * q <=? p then toString_positive m e
       else fixed_digits (round_half_up p q (Z.of_nat fractionDigits)) fractionDigits)
  end.

(** Follows the spec's words, "rendered with exactly two decimal digits":
    the sign, the integer part of [n / 100], a point, and the two last
    digits of [n] (the hundredths). *)
Definition two_decimals (negative : bool) (n : Z) : string :=
  (if negative then "-" else "") +:+ decimal (n / 100) +:+ "." +:+
  String (digit (n / 10 mod 10)) (String (digit (n mod 10)) "").

End Number.

(** ** JavaScript values *)

Module JS.
Import Number.

(** What [JSON.parse] can produce, and [undefined] (a missing property). An
    object is its own properties in order; a read takes the first entry of
    a key. *)
#[warnings="-register-all"]
Inductive value : Type :=
  | VUndefined
  | VNull
  | VBool (b : bool)
  | VNum (x : number)
  | VStr (s : string)
  | VArr (items : list value)
  | VObj (props : list (string * value)).

(** What a [throw] or a rejected promise carries: an [Error] object (of any
    subclass) with its [message], or any other value. *)
Inductive thrown : Type :=
  | Error (message : string)
  | NotError (v : value).

(** A computation that returns or throws. *)
Definition completion (A : Type) : Type := thrown + A.

(** What the JavaScript engine and the browser decide. *)
Record Host : Type := {
  (** [Number.prototype.toLocaleString()] in the default locale *)
  toLocaleString : number -> string;
  (** [String.prototype.toUpperCase()] *)
  toUpperCase : string -> string;
  (** [getDefaultDate()] of [@/lib/utils] at its [i]-th call: today's date
      in the format of the input fields *)
  getDefaultDate : nat -> string;
  (** message of the [TypeError] for reading property [k] of [undefined]
      or [null] *)
  cannot_read : value -> string -> string;
  (** message of the [TypeError] for an object without a primitive value *)
  cannot_convert : string;
  (** [formatResultForCopy] run by the engine on a stored value that has
      not the shape of a [StockAnalysisResult] (TypeScript does not check
      [json.data]): the text or the [TypeError] that the coercions of
      JavaScript give, left open here *)
  other_shape : value -> completion string;
}.

(** ToBoolean. *)
Definition ToBoolean (v : value) : bool :=
  match v with
  | VUndefined | VNull => false
  | VBool b => b
  | VNum (S754_zero _) | VNum S754_nan => false
  | VNum _ => true
  | VStr s => negb (String.eqb s "")
  | VArr _ | VObj _ => true
  end.

Fixpoint own (props : list (string * value)) (k : string) : option value :=
  match props with
  | [] => None
  | (k', v) :: rest => if String.eqb k' k then Some v else own rest k
  end.

(** [v.k] for a key [k] that no built-in prototype defines (the component
    reads [success], [error] and [data]): the own property of an object,
    [undefined] on an array or a primitive, a [TypeError] on [undefined] and
    [null]. *)
Definition Get (h : Host) (v : value) (k : string) : completion value :=
  match v with
  | VUndefined | VNull => inl (Error (cannot_read h v k))
  | VObj props => inr (default VUndefined (own props k))
  | _ => inr VUndefined
  end.

(** [a || b]. *)
Definition logical_or (a b : value) : value := if ToBoolean a then a else b.

Fixpoint join (sep : string) (parts : list (completion string)) : completion string :=
  match parts with
  | [] => inr ""
  | [part] => part
  | part :: rest =>
      match part, join sep rest with
      | inl e, _ => inl e
      | inr _, inl e => inl e
      | inr s, inr s' => inr (s +:+ sep +:+ s')
      end
  end.

(** ToString. An object of [JSON.parse] inherits [Object.prototype.toString]
    unless it has an own [toString], which is no function: then no method
    gives a primitive. An array joins its elements. *)
Fixpoint ToString (h : Host) (v : value) : completion string :=
  match v with
  | VUndefined => inr "undefined"
  | VNull => inr "null"
  | VBool b => inr (if b then "true" else "false")
  | VNum x => inr (Number.toString x)
  | VStr s => inr s
  | VArr items =>
      join "," ((fix elements (l : list value) : list (completion string) :=
                   match l with
                   | [] => []
                   | VUndefined :: l' | VNull :: l' => inr "" :: elements l'
                   | v' :: l' => ToString h v' :: elements l'
                   end) items)
  | VObj props =>
      match own props "toString" with
      | Some _ => inl (Error (cannot_convert h))
      | None => inr "[object Object]"
      end
  end.

(** *** A host: the en-US locale, V8's messages *)

Import Digits.

(** Groups of three digits from the right. *)
Fixpoint group3 (s : string) : string :=
  match s with
  | EmptyString => ""
  | String c s' =>
      let n := String.length s' in
      if (0 <? n)%nat && (n mod 3 =? 0)%nat then String c ("," +:+ group3 s')
      else String c (group3 s')
  end.

Fixpoint strip_zeros (fuel : nat) (s : string) : string :=
  match fuel with
  | O => s
  | S fuel' =>
      let k := String.length s in
      if String.eqb (drop (k - 1) s) "0" then strip_zeros fuel' (take (k - 1) s)
      else s
  end.

(** ECMA-402, FormatNumericToString with the default options of
    Intl.NumberFormat: at most three fraction digits, half away from zero,
    trailing zeros removed, the integer grouped. *)
Definition toLocaleString_enUS (x : number) : string :=
  match x with
  | S754_nan => "NaN"
  | S754_infinity s => (if s then "-" else "") +:+ "∞"
  | S754_zero s => (if s then "-" else "") +:+ "0"
  | S754_finite s m e =>
      let '(p, q) := fraction m e in
      let n := round_half_up p q 3 in
      let integer := decimal (n / 1000) in
      let fractional := strip_zeros 3 (drop 1 (decimal (1000 + n mod 1000))) in
      (if s then "-" else "") +:+ group3 integer +:+
      (if String.eqb fractional "" then "" else "." +:+ fractional)
  end.

Definition upper (c : ascii) : ascii :=
  let n := nat_of_ascii c in
  if (97 <=? n)%nat && (n <=? 122)%nat then ascii_of_nat (n - 32) else c.

(** Upper case of the ASCII letters; the other code units stay. *)
Fixpoint toUpperCase_ascii (s : string) : string :=
  match s with
  | EmptyString => ""
  | String c s' => String (upper c) (toUpperCase_ascii s')
  end.

Definition today : string := "2024-01-31".

Definition enUS : Host := {|
  toLocaleString := toLocaleString_enUS;
  toUpperCase := toUpperCase_ascii;
  getDefaultDate := fun _ => today;
  cannot_read := fun v k =>
    "Cannot read properties of " +:+
    (match v with VNull => "null" | _ => "undefined" end) +:+
    " (reading '" +:+ k +:+ "')";
  cannot_convert := "Cannot convert object to primitive value";
  other_shape := fun _ =>
    inl (Error "Cannot read properties of undefined (reading 'emiten')");
|}.

End JS.

(** ** The serializer: [formatResultForCopy] *)

Module Serializer.
Import Number JS.

(** A field of type [number | null | undefined]. *)
Inductive field : Type :=
  | Undefined
  | Null
  | Num (x : number).

(** The types of [@/lib/types], as far as the component reads them. *)
Record StockInput : Type := {
  emiten : string;
  fromDate : string;
  toDate : string;
}.

Record StockbitData : Type := {
  bandar : string;
  barangBandar : field;
  rataRataBandar : field;
}.

Record MarketData : Type := {
  harga : field;
  offerTeratas : field;
  bidTerbawah : field;
  fraksi : field;
  totalBid : field;
  totalOffer : field;
}.

Record Calculated : Type := {
  totalPapan : field;
  rataRataBidOfer : field;
  a : field;
  p : field;
  targetRealistis1 : field;
  targetMax : field;
}.

Record StockAnalysisResult : Type := {
  input : StockInput;
  stockbitData : StockbitData;
  marketData : MarketData;
  calculated : Calculated;
}.

(** ToNumber: an operand of [-] or [/]. *)
Definition ToNumber (f : field) : number :=
  match f with
  | Undefined => NaN
  | Null => S754_zero false
  | Num x => x
  end.

(** ToString: a substitution of a template literal. *)
Definition template (f : field) : string :=
  match f with
  | Undefined => "undefined"
  | Null => "null"
  | Num x => Number.toString x
  end.

Definition LF : string := String (ascii_of_nat 10) "".

Section WithHost.
Variable h : Host.

(** [const formatNumber = (num) => num?.toLocaleString() ?? '-'] *)
Definition formatNumber (num : field) : string :=
  match num with
  | Undefined | Null => "-"
  | Num x => toLocaleString h x
  end.

(** [const gain = ((target - marketData.harga) / marketData.harga) * 100] *)
Definition gain (marketData : MarketData) (target : field) : number :=
  mul (div (sub (ToNumber target) (ToNumber (harga marketData)))
           (ToNumber (harga marketData)))
      (of_Z 100).

(** [return gain.toFixed(2)] *)
Definition calculateGain (marketData : MarketData) (target : field) : string :=
  toFixed (gain marketData target) 2.

(** [marketData.totalBid / 100] *)
Definition per100 (f : field) : field := Num (div (ToNumber f) (of_Z 100)).

Definition lines (result : StockAnalysisResult) : list string :=
  let '{| input := input; stockbitData := stockbitData;
          marketData := marketData; calculated := calculated |} := result in
  [ "ANALISIS SAHAM: " +:+ toUpperCase h (emiten input);
    "Periode: " +:+ fromDate input +:+ " s/d " +:+ toDate input;
    "";
    "TOP BROKER";
    "Broker: " +:+ bandar stockbitData;
    "Barang Bandar: " +:+ formatNumber (barangBandar stockbitData) +:+ " lot";
    "Rata-rata Harga: Rp " +:+ formatNumber (rataRataBandar stockbitData);
    "";
    "MARKET DATA";
    "Harga: Rp " +:+ formatNumber (harga marketData);
    "Offer Max: Rp " +:+ formatNumber (offerTeratas marketData);
    "Bid Min: Rp " +:+ formatNumber (bidTerbawah marketData);
    "Fraksi: " +:+ formatNumber (fraksi marketData);
    "Total Bid: " +:+ formatNumber (per100 (totalBid marketData));
    "Total Offer: " +:+ formatNumber (per100 (totalOffer marketData));
    "";
    "CALCULATIONS";
    "Total Papan: " +:+ formatNumber (totalPapan calculated);
    "Rata² Bid/Offer: " +:+ formatNumber (rataRataBidOfer calculated);
    "a (5% dari rata² bandar): " +:+ formatNumber (a calculated);
    "p (Barang/Rata² Bid Offer): " +:+ formatNumber (p calculated);
    "";
    "TARGET PRICES";
    "Target Min: " +:+ template (targetRealistis1 calculated) +:+ " (+" +:+
      calculateGain marketData (targetRealistis1 calculated) +:+ "%)";
    "Target Max: " +:+ template (targetMax calculated) +:+ " (+" +:+
      calculateGain marketData (targetMax calculated) +:+ "%)" ].

(** [return lines.join('\n')] *)
Definition formatResultForCopy (result : StockAnalysisResult) : string :=
  String.concat LF (lines result).

(** Follows the spec's words, "missing/absent numeric values render as a
    fixed placeholder character (-) rather than NaN or empty string;
    present numeric values render using locale-grouped digit formatting":
    every numeric value of the report rendered that way, the two volumes
    divided by 100 when present. *)
Definition spec_number (num : field) : string :=
  match num with
  | Undefined | Null => "-"
  | Num x => toLocaleString h x
  end.

Definition spec_per100 (f : field) : field :=
  match f with
  | Num x => Num (div x (of_Z 100))
  | missing => missing
  end.

Definition spec_lines (result : StockAnalysisResult) : list string :=
  let '{| input := input; stockbitData := stockbitData;
          marketData := marketData; calculated := calculated |} := result in
  [ "ANALISIS SAHAM: " +:+ toUpperCase h (emiten input);
    "Periode: " +:+ fromDate input +:+ " s/d " +:+ toDate input;
    "";
    "TOP BROKER";
    "Broker: " +:+ bandar stockbitData;
    "Barang Bandar: " +:+ spec_number (barangBandar stockbitData) +:+ " lot";
    "Rata-rata Harga: Rp " +:+ spec_number (rataRataBandar stockbitData);
    "";
    "MARKET DATA";
    "Harga: Rp " +:+ spec_number (harga marketData);
    "Offer Max: Rp " +:+ spec_number (offerTeratas marketData);
    "Bid Min: Rp " +:+ spec_number (bidTerbawah marketData);
    "Fraksi: " +:+ spec_number (fraksi marketData);
    "Total Bid: " +:+ spec_number (spec_per100 (totalBid marketData));
    "Total Offer: " +:+ spec_number (spec_per100 (totalOffer marketData));
    "";
    "CALCULATIONS";
    "Total Papan: " +:+ spec_number (totalPapan calculated);
    "Rata² Bid/Offer: " +:+ spec_number (rataRataBidOfer calculated);
    "a (5% dari rata² bandar): " +:+ spec_number (a calculated);
    "p (Barang/Rata² Bid Offer): " +:+ spec_number (p calculated);
    "";
    "TARGET PRICES";
    "Target Min: " +:+ spec_number (targetRealistis1 calculated) +:+ " (+" +:+
      calculateGain marketData (targetRealistis1 calculated) +:+ "%)";
    "Target Max: " +:+ spec_number (targetMax calculated) +:+ " (+" +:+
      calculateGain marketData (targetMax calculated) +:+ "%)" ].

(** The line of the report at index [i]. *)
Definition line (i : nat) (result : StockAnalysisResult) : string :=
  nth i (lines result) "".

End WithHost.

(** *** Sample results *)

Definition price (z : Z) : field := Num (of_Z z).

(** The example of the spec: BBCA at 9000 with the targets 9500 and 8500. *)
Definition bbca : StockAnalysisResult := {|
  input := {| emiten := "bbca"; fromDate := "2024-01-01"; toDate := "2024-01-31" |};
  stockbitData := {| bandar := "YP"; barangBandar := price 1250000;
                     rataRataBandar := price 8900 |};
  marketData := {| harga := price 9000; offerTeratas := price 9025;
                   bidTerbawah := price 8975; fraksi := price 25;
                   totalBid := price 1234500; totalOffer := price 2500000 |};
  calculated := {| totalPapan := price 37345; rataRataBidOfer := price 18672;
                   a := price 445; p := price 67;
                   targetRealistis1 := price 9500; targetMax := price 8500 |};
|}.

(** The same with fields missing: a [null] lot quantity, an [undefined]
    bid volume, a [null] offer volume and a [null] upper target. *)
Definition bbca_missing : StockAnalysisResult := {|
  input := input bbca;
  stockbitData := {| bandar := "YP"; barangBandar := Null;
                     rataRataBandar := price 8900 |};
  marketData := {| harga := price 9000; offerTeratas := price 9025;
                   bidTerbawah := price 8975; fraksi := price 25;
                   totalBid := Undefined; totalOffer := Null |};
  calculated := {| totalPapan := price 37345; rataRataBidOfer := price 18672;
                   a := price 445; p := price 67;
                   targetRealistis1 := price 9500; targetMax := Null |};
|}.

(** The same at the price 0. *)
Definition bbca_suspended : StockAnalysisResult := {|
  input := input bbca;
  stockbitData := stockbitData bbca;
  marketData := {| harga := price 0; offerTeratas := price 9025;
                   bidTerbawah := price 8975; fraksi := price 25;
                   totalBid := price 1234500; totalOffer := price 2500000 |};
  calculated := calculated bbca;
|}.

End Serializer.

(** ** The component: [Calculator] *)

Module Orchestrator.
Import Number JS Serializer.

(** *** State

    [useState(false)], [useState<StockAnalysisResult | null>(null)],
    [useState<string | null>(null)], [useState(false)]. The result holds
    what [json.data] was: TypeScript does not check it. *)
Record State : Type := {
  loading : bool;
  result : value;
  error : option string;
  copied : bool;
}.

Definition initial : State :=
  {| loading := false; result := VNull; error := None; copied := false |}.

Definition set_loading (b : bool) (st : State) : State :=
  {| loading := b; result := result st; error := error st; copied := copied st |}.
Definition set_result (v : value) (st : State) : State :=
  {| loading := loading st; result := v; error := error st; copied := copied st |}.
Definition set_error (e : option string) (st : State) : State :=
  {| loading := loading st; result := result st; error := e; copied := copied st |}.
Definition set_copied (b : bool) (st : State) : State :=
  {| loading := loading st; result := result st; error := error st; copied := b |}.

(** *** The browser's promises *)

Record Request : Type := {
  url : string;
  method : string;
  headers : list (string * string);
  (** [JSON.stringify(data)], kept as the value it encodes *)
  body : StockInput;
}.

Record Response : Type := {
  status : Z;
  text : string;
}.

Inductive settled (A : Type) : Type :=
  | Fulfilled (a : A)
  | Rejected (e : thrown).
Arguments Fulfilled {A} a.
Arguments Rejected {A} e.

(** *** Asynchronous functions

    The body of an [async] function up to its end: it returns, throws,
    calls a state setter or the host, or awaits a promise and goes on with
    what the promise settles to. *)
Inductive async (A : Type) : Type :=
  | Return (a : A)
  | Throw (e : thrown)
  | SetState (f : State -> State) (k : async A)
  | AwaitFetch (request : Request) (k : settled Response -> async A)
  | AwaitJson (response : Response) (k : settled value -> async A)
  | AwaitWriteText (data : string) (k : settled unit -> async A)
  | SetTimeout (callback : State -> State) (delay : Z) (k : async A)
  | ConsoleError (label : string) (err : thrown) (k : async A)
  | GetDefaultDate (k : string -> async A).
Arguments Return {A} a.
Arguments Throw {A} e.
Arguments SetState {A} f k.
Arguments AwaitFetch {A} request k.
Arguments AwaitJson {A} response k.
Arguments AwaitWriteText {A} data k.
Arguments SetTimeout {A} callback delay k.
Arguments ConsoleError {A} label err k.
Arguments GetDefaultDate {A} k.

Fixpoint bind {A B : Type} (m : async A) (f : A -> async B) : async B :=
  match m with
  | Return a => f a
  | Throw e => Throw e
  | SetState g k => SetState g (bind k f)
  | AwaitFetch request k => AwaitFetch request (fun o => bind (k o) f)
  | AwaitJson response k => AwaitJson response (fun o => bind (k o) f)
  | AwaitWriteText data k => AwaitWriteText data (fun o => bind (k o) f)
  | SetTimeout callback delay k => SetTimeout callback delay (bind k f)
  | ConsoleError label err k => ConsoleError label err (bind k f)
  | GetDefaultDate k => GetDefaultDate (fun d => bind (k d) f)
  end.

#[export] Instance async_ret : MRet async := @Return.
#[export] Instance async_bind : MBind async := fun A B f m => bind m f.

(** [try { m } catch (err) { handler err }] *)
Fixpoint try_catch {A : Type} (m : async A) (handler : thrown -> async A) : async A :=
  match m with
  | Return a => Return a
  | Throw e => handler e
  | SetState g k => SetState g (try_catch k handler)
  | AwaitFetch request k => AwaitFetch request (fun o => try_catch (k o) handler)
  | AwaitJson response k => AwaitJson response (fun o => try_catch (k o) handler)
  | AwaitWriteText data k => AwaitWriteText data (fun o => try_catch (k o) handler)
  | SetTimeout callback delay k => SetTimeout callback delay (try_catch k handler)
  | ConsoleError label err k => ConsoleError label err (try_catch k handler)
  | GetDefaultDate k => GetDefaultDate (fun d => try_catch (k d) handler)
  end.

(** [try { m } finally { finalizer }]: the finalizer runs on both ways out
    and, when it completes, the completion of [m] stands. *)
Fixpoint try_finally {A : Type} (m : async A) (finalizer : async unit) : async A :=
  match m with
  | Return a => finalizer ;; Return a
  | Throw e => finalizer ;; Throw e
  | SetState g k => SetState g (try_finally k finalizer)
  | AwaitFetch request k => AwaitFetch request (fun o => try_finally (k o) finalizer)
  | AwaitJson response k => AwaitJson response (fun o => try_finally (k o) finalizer)
  | AwaitWriteText data k => AwaitWriteText data (fun o => try_finally (k o) finalizer)
  | SetTimeout callback delay k => SetTimeout callback delay (try_finally k finalizer)
  | ConsoleError label err k => ConsoleError label err (try_finally k finalizer)
  | GetDefaultDate k => GetDefaultDate (fun d => try_finally (k d) finalizer)
  end.

(** [await p]: the value of a fulfilled promise, the reason of a rejected
    one thrown. *)
Definition await {A : Type} (o : settled A) : async A :=
  match o with
  | Fulfilled a => Return a
  | Rejected e => Throw e
  end.

Definition fetch (request : Request) : async Response := AwaitFetch request await.
Definition json (response : Response) : async value := AwaitJson response await.
Definition writeText (data : string) : async unit := AwaitWriteText data await.

(** A synchronous computation inside an asynchronous function. *)
Definition lift {A : Type} (c : completion A) : async A :=
  match c with
  | inl e => Throw e
  | inr a => Return a
  end.

Definition setLoading (b : bool) : async unit := SetState (set_loading b) (Return ()).
Definition setResult (v : value) : async unit := SetState (set_result v) (Return ()).
Definition setError (e : option string) : async unit := SetState (set_error e) (Return ()).
Definition setCopied (b : bool) : async unit := SetState (set_copied b) (Return ()).
Definition setTimeout (callback : State -> State) (delay : Z) : async unit :=
  SetTimeout callback delay (Return ()).
Definition console_error (label : string) (err : thrown) : async unit :=
  ConsoleError label err (Return ()).

(** [selectedStock?: string | null] *)
Inductive prop : Type :=
  | Absent
  | IsNull
  | Str (s : string).

(** The truthiness of [selectedStock]. *)
Definition truthy (selectedStock : prop) : option string :=
  match selectedStock with
  | Str s => if String.eqb s "" then None else Some s
  | _ => None
  end.

(** [Object.is] on two values of the dependency [selectedStock]. *)
Definition Object_is (x y : prop) : bool :=
  match x, y with
  | Absent, Absent | IsNull, IsNull => true
  | Str s, Str s' => String.eqb s s'
  | _, _ => false
  end.

Section WithHost.
Variable h : Host.

(** [new Error(message)] *)
Definition new_Error (message : value) : completion thrown :=
  match message with
  | VUndefined => inr (Error "")
  | _ => match ToString h message with
         | inl e => inl e
         | inr s => inr (Error s)
         end
  end.

(** [err instanceof Error ? err.message : 'An error occurred'] *)
Definition message_of (err : thrown) : string :=
  match err with
  | Error message => message
  | NotError _ => "An error occurred"
  end.

Definition handleSubmit (data : StockInput) : async unit :=
  setLoading true ;;
  setError None ;;
  setResult VNull ;;
  try_finally
    (try_catch
       (response ← fetch {| url := "/api/stock";
                            method := "POST";
                            headers := [("Content-Type", "application/json")];
                            body := data |};
        json ← json response;
        success ← lift (Get h json "success");
        if negb (ToBoolean success) then
          error ← lift (Get h json "error");
          err ← lift (new_Error (logical_or error (VStr "Failed to analyze stock")));
          Throw err
        else
          data ← lift (Get h json "data");
          setResult data)
       (fun err => setError (Some (message_of err))))
    (setLoading false).

(** The stored value read at its declared type [StockAnalysisResult]. *)
Definition property (v : value) (k : string) : option value :=
  match v with
  | VObj props => Some (default VUndefined (own props k))
  | _ => None
  end.

Definition as_string (v : value) : option string :=
  match v with
  | VStr s => Some s
  | _ => None
  end.

Definition as_field (v : value) : option field :=
  match v with
  | VUndefined => Some Undefined
  | VNull => Some Null
  | VNum x => Some (Num x)
  | _ => None
  end.

Definition as_StockInput (v : value) : option StockInput :=
  emiten ← property v "emiten" ≫= as_string;
  fromDate ← property v "fromDate" ≫= as_string;
  toDate ← property v "toDate" ≫= as_string;
  Some {| emiten := emiten; fromDate := fromDate; toDate := toDate |}.

Definition as_StockbitData (v : value) : option StockbitData :=
  bandar ← property v "bandar" ≫= as_string;
  barangBandar ← property v "barangBandar" ≫= as_field;
  rataRataBandar ← property v "rataRataBandar" ≫= as_field;
  Some {| bandar := bandar; barangBandar := barangBandar;
          rataRataBandar := rataRataBandar |}.

Definition as_MarketData (v : value) : option MarketData :=
  harga ← property v "harga" ≫= as_field;
  offerTeratas ← property v "offerTeratas" ≫= as_field;
  bidTerbawah ← property v "bidTerbawah" ≫= as_field;
  fraksi ← property v "fraksi" ≫= as_field;
  totalBid ← property v "totalBid" ≫= as_field;
  totalOffer ← property v "totalOffer" ≫= as_field;
  Some {| harga := harga; offerTeratas := offerTeratas;
          bidTerbawah := bidTerbawah; fraksi := fraksi;
          totalBid := totalBid; totalOffer := totalOffer |}.

Definition as_Calculated (v : value) : option Calculated :=
  totalPapan ← property v "totalPapan" ≫= as_field;
  rataRataBidOfer ← property v "rataRataBidOfer" ≫= as_field;
  a ← property v "a" ≫= as_field;
  p ← property v "p" ≫= as_field;
  targetRealistis1 ← property v "targetRealistis1" ≫= as_field;
  targetMax ← property v "targetMax" ≫= as_field;
  Some {| totalPapan := totalPapan; rataRataBidOfer := rataRataBidOfer;
          a := a; p := p; targetRealistis1 := targetRealistis1;
          targetMax := targetMax |}.

Definition as_StockAnalysisResult (v : value) : option StockAnalysisResult :=
  input ← property v "input" ≫= as_StockInput;
  stockbitData ← property v "stockbitData" ≫= as_StockbitData;
  marketData ← property v "marketData" ≫= as_MarketData;
  calculated ← property v "calculated" ≫= as_Calculated;
  Some {| input := input; stockbitData := stockbitData;
          marketData := marketData; calculated := calculated |}.

(** The JSON object of a [StockAnalysisResult]. *)
Definition of_field (f : field) : value :=
  match f with
  | Undefined => VUndefined
  | Null => VNull
  | Num x => VNum x
  end.

Definition of_StockAnalysisResult (r : StockAnalysisResult) : value :=
  VObj [
    ("input", VObj [
       ("emiten", VStr (emiten (input r)));
       ("fromDate", VStr (fromDate (input r)));
       ("toDate", VStr (toDate (input r))) ]);
    ("stockbitData", VObj [
       ("bandar", VStr (bandar (stockbitData r)));
       ("barangBandar", of_field (barangBandar (stockbitData r)));
       ("rataRataBandar", of_field (rataRataBandar (stockbitData r))) ]);
    ("marketData", VObj [
       ("harga", of_field (harga (marketData r)));
       ("offerTeratas", of_field (offerTeratas (marketData r)));
       ("bidTerbawah", of_field (bidTerbawah (marketData r)));
       ("fraksi", of_field (fraksi (marketData r)));
       ("totalBid", of_field (totalBid (marketData r)));
       ("totalOffer", of_field (totalOffer (marketData r))) ]);
    ("calculated", VObj [
       ("totalPapan", of_field (totalPapan (calculated r)));
       ("rataRataBidOfer", of_field (rataRataBidOfer (calculated r)));
       ("a", of_field (a (calculated r)));
       ("p", of_field (p (calculated r)));
       ("targetRealistis1", of_field (targetRealistis1 (calculated r)));
       ("targetMax", of_field (targetMax (calculated r))) ]) ].

Definition serialize (result : value) : completion string :=
  match as_StockAnalysisResult result with
  | Some r => inr (formatResultForCopy h r)
  | None => other_shape h result
  end.

(** [result] is the state of the render whose button was clicked. *)
Definition handleCopy (result : value) : async unit :=
  if negb (ToBoolean result) then Return ()
  else
    try_catch
      (formattedText ← lift (serialize result);
       writeText formattedText ;;
       setCopied true ;;
       setTimeout (set_copied false) 2000)
      (fun err => console_error "Failed to copy:" err).

(** The effect on [[selectedStock]]. [handleSubmit] is called last and not
    awaited: it runs up to its first [await] within the effect. *)
Definition effect (selectedStock : prop) : async unit :=
  match truthy selectedStock with
  | Some ticker =>
      setResult VNull ;;
      setError None ;;
      defaultDate ← GetDefaultDate Return;
      handleSubmit {| emiten := ticker;
                      fromDate := defaultDate;
                      toDate := defaultDate |}
  | None => Return ()
  end.

(** *** The event loop

    A task is a function suspended at an [await], or a timer. The world is
    the component's state, the tasks, and what the host has recorded. *)
Inductive task : Type :=
  | OnFetch (request : Request) (k : settled Response -> async unit)
  | OnJson (response : Response) (k : settled value -> async unit)
  | OnWriteText (data : string) (k : settled unit -> async unit)
  | OnTimeout (callback : State -> State) (delay : Z).

Record World : Type := {
  ui : State;
  tasks : gmap nat task;
  (** the identifier of the next task *)
  fresh : nat;
  (** the [selectedStock] of the last render, none before the first *)
  rendered : option prop;
  (** the calls of [getDefaultDate] so far *)
  dates : nat;
  (** the lines of [console.error] *)
  console : list (string * thrown);
  (** the rejections no handler caught *)
  unhandled : list thrown;
}.

Definition boot : World :=
  {| ui := initial; tasks := ∅; fresh := 0; rendered := None; dates := 0;
     console := []; unhandled := [] |}.

Definition with_ui (f : State -> State) (w : World) : World :=
  {| ui := f (ui w); tasks := tasks w; fresh := fresh w;
     rendered := rendered w; dates := dates w; console := console w;
     unhandled := unhandled w |}.

Definition suspend (id : nat) (t : task) (w : World) : World :=
  {| ui := ui w; tasks := <[id := t]> (tasks w); fresh := fresh w;
     rendered := rendered w; dates := dates w; console := console w;
     unhandled := unhandled w |}.

Definition allocate (w : World) : World :=
  {| ui := ui w; tasks := tasks w; fresh := S (fresh w);
     rendered := rendered w; dates := dates w; console := console w;
     unhandled := unhandled w |}.

Definition resume (id : nat) (w : World) : World :=
  {| ui := ui w; tasks := delete id (tasks w); fresh := fresh w;
     rendered := rendered w; dates := dates w; console := console w;
     unhandled := unhandled w |}.

Definition render (selectedStock : prop) (w : World) : World :=
  {| ui := ui w; tasks := tasks w; fresh := fresh w;
     rendered := Some selectedStock; dates := dates w; console := console w;
     unhandled := unhandled w |}.

Definition tick (w : World) : World :=
  {| ui := ui w; tasks := tasks w; fresh := fresh w;
     rendered := rendered w; dates := S (dates w); console := console w;
     unhandled := unhandled w |}.

Definition log (label : string) (err : thrown) (w : World) : World :=
  {| ui := ui w; tasks := tasks w; fresh := fresh w;
     rendered := rendered w; dates := dates w;
     console := console w ++ [(label, err)]; unhandled := unhandled w |}.

Definition reject (e : thrown) (w : World) : World :=
  {| ui := ui w; tasks := tasks w; fresh := fresh w;
     rendered := rendered w; dates := dates w; console := console w;
     unhandled := unhandled w ++ [e] |}.

(** Runs the call [id] of a function until it ends or suspends; a timer
    is a task of its own. *)
Fixpoint run (id : nat) (m : async unit) (w : World) : World :=
  match m with
  | Return _ => w
  | Throw e => reject e w
  | SetState f k => run id k (with_ui f w)
  | AwaitFetch request k => suspend id (OnFetch request k) w
  | AwaitJson response k => suspend id (OnJson response k) w
  | AwaitWriteText data k => suspend id (OnWriteText data k) w
  | SetTimeout callback delay k =>
      run id k (allocate (suspend (fresh w) (OnTimeout callback delay) w))
  | ConsoleError label err k => run id k (log label err w)
  | GetDefaultDate k => run id (k (getDefaultDate h (dates w))) (tick w)
  end.

(** A new call. *)
Definition call (m : async unit) (w : World) : World :=
  run (fresh w) m (allocate w).

Inductive event : Type :=
  (** the form calls [onSubmit] *)
  | Submit (data : StockInput)
  (** the parent renders the component with this [selectedStock] *)
  | Render (selectedStock : prop)
  (** the copy button is clicked *)
  | Copy
  | FetchSettled (id : nat) (o : settled Response)
  | JsonSettled (id : nat) (o : settled value)
  | WriteTextSettled (id : nat) (o : settled unit)
  | TimeoutFired (id : nat).

(** The effect runs after the first render and after a render whose
    dependency differs from the one before. *)
Definition changed (w : World) (selectedStock : prop) : bool :=
  match rendered w with
  | None => true
  | Some previous => negb (Object_is previous selectedStock)
  end.

Definition handle (w : World) (e : event) : World :=
  match e with
  | Submit data => call (handleSubmit data) w
  | Render selectedStock =>
      if changed w selectedStock
      then call (effect selectedStock) (render selectedStock w)
      else render selectedStock w
  | Copy => call (handleCopy (result (ui w))) w
  | FetchSettled id o =>
      match tasks w !! id with
      | Some (OnFetch _ k) => run id (k o) (resume id w)
      | _ => w
      end
  | JsonSettled id o =>
      match tasks w !! id with
      | Some (OnJson _ k) => run id (k o) (resume id w)
      | _ => w
      end
  | WriteTextSettled id o =>
      match tasks w !! id with
      | Some (OnWriteText _ k) => run id (k o) (resume id w)
      | _ => w
      end
  | TimeoutFired id =>
      match tasks w !! id with
      | Some (OnTimeout callback _) => with_ui callback (resume id w)
      | _ => w
      end
  end.

Definition handle_all (w : World) (es : list event) : World :=
  foldl handle w es.

(** *** What a request meets, and what the component can reach *)

(** [fetch] rejects, or it gives a response whose [json()] settles. *)
Inductive reply : Type :=
  | NoResponse (e : thrown)
  | Answered (response : Response) (body : settled value).

(** The events in which the request of call [id] meets [r]. *)
Definition delivery (id : nat) (r : reply) : list event :=
  match r with
  | NoResponse e => [FetchSettled id (Rejected e)]
  | Answered response body =>
      [FetchSettled id (Fulfilled response); JsonSettled id body]
  end.

(** The call [handleSubmit(data)] in the world [w], run until its request
    has met [r]. *)
Definition submit (w : World) (data : StockInput) (r : reply) : World :=
  handle_all (handle w (Submit data)) (delivery (fresh w) r).

(** The request of [handleSubmit(data)]. *)
Definition request_of (data : StockInput) : Request :=
  {| url := "/api/stock"; method := "POST";
     headers := [("Content-Type", "application/json")]; body := data |}.

(** The completion of the [try] block of [handleSubmit], by cases on what
    the request meets (shown below to be what the code comes to). *)
Definition verdict (r : reply) : completion value :=
  match r with
  | NoResponse e | Answered _ (Rejected e) => inl e
  | Answered _ (Fulfilled json) =>
      match Get h json "success" with
      | inl e => inl e
      | inr success =>
          if ToBoolean success then Get h json "data"
          else
            match Get h json "error" with
            | inl e => inl e
            | inr error =>
                match new_Error (logical_or error (VStr "Failed to analyze stock")) with
                | inl e => inl e
                | inr err => inl err
                end
            end
      end
  end.

(** What [catch] and [finally] of [handleSubmit] do with the completion of
    the [try] block. *)
Definition conclude (c : completion value) (st : State) : State :=
  set_loading false
    (match c with
     | inr data => set_result data st
     | inl err => set_error (Some (message_of err)) st
     end).

(** What [handleSubmit] does before its first [await]. *)
Definition begin (st : State) : State :=
  set_result VNull (set_error None (set_loading true st)).

(** Neither a result nor an error is shown, and the spinner is. *)
Definition cleared (st : State) : Prop :=
  loading st = true /\ result st = VNull /\ error st = None.

(** The continuations of the component's functions at their [await]s. *)
Definition fetched : settled Response -> async unit :=
  match handleSubmit {| emiten := ""; fromDate := ""; toDate := "" |} with
  | SetState _ (SetState _ (SetState _ (AwaitFetch _ k))) => k
  | _ => fun _ => Return ()
  end.

Definition parsed : settled value -> async unit :=
  match fetched (Fulfilled {| status := 200; text := "" |}) with
  | AwaitJson _ k => k
  | _ => fun _ => Return ()
  end.

Definition written : settled unit -> async unit :=
  match handleCopy (of_StockAnalysisResult bbca) with
  | AwaitWriteText _ k => k
  | _ => fun _ => Return ()
  end.

Definition is_request (t : task) : bool :=
  match t with
  | OnFetch _ _ | OnJson _ _ => true
  | _ => false
  end.

(** No request is in flight. *)
Definition idle (w : World) : Prop :=
  forall id t, tasks w !! id = Some t -> is_request t = false.

(** The tasks are the component's, and older than the next call. *)
Definition component_task (t : task) : Prop :=
  match t with
  | OnFetch _ k => k = fetched
  | OnJson _ k => k = parsed
  | OnWriteText _ k => k = written
  | OnTimeout callback delay => callback = set_copied false /\ delay = 2000
  end.

(** A function that suspends into the component's tasks only. *)
Fixpoint safe (m : async unit) : Prop :=
  match m with
  | Return _ | Throw _ => True
  | SetState _ k | ConsoleError _ _ k => safe k
  | AwaitFetch _ k => k = fetched
  | AwaitJson _ k => k = parsed
  | AwaitWriteText _ k => k = written
  | SetTimeout callback delay k =>
      (callback = set_copied false /\ delay = 2000) /\ safe k
  | GetDefaultDate k => forall d, safe (k d)
  end.

Definition well_formed (w : World) : Prop :=
  forall id t, tasks w !! id = Some t -> (id < fresh w)%nat /\ component_task t.

Inductive reachable : World -> Prop :=
  | reachable_boot : reachable boot
  | reachable_handle w e : reachable w -> reachable (handle w e).

(** The request of call [id] is in flight, and it is the only one. *)
Definition waiting (id : nat) (w : World) : Prop :=
  exists t, tasks w !! id = Some t /\ is_request t = true.

Definition only_request (id : nat) (w : World) : Prop :=
  forall id' t, tasks w !! id' = Some t -> is_request t = true -> id' = id.

(** A result ([true]) or a failure ([false]). *)
Definition kind (c : completion value) : bool :=
  match c with
  | inr _ => true
  | inl _ => false
  end.

(** *** The claims as the spec states them, where the code differs *)

(** "at no point are a stale result or stale error visible alongside the
    new request": while a request is in flight, neither is shown. *)
Definition never_stale : Prop :=
  forall es id t,
    tasks (handle_all boot es) !! id = Some t -> is_request t = true ->
    result (ui (handle_all boot es)) = VNull /\
    error (ui (handle_all boot es)) = None.

(** "if it is non-null and distinct from the previous one, the component
    ... calls submit with that ticker": every new string starts a request. *)
Definition every_new_ticker_submits : Prop :=
  forall w ticker,
    changed w (Str ticker) = true ->
    exists k,
      tasks (handle w (Render (Str ticker))) !! fresh w =
      Some (OnFetch (request_of {| emiten := ticker;
                                   fromDate := getDefaultDate h (dates w);
                                   toDate := getDefaultDate h (dates w) |}) k).

(** "the final displayed state is whichever response resolved last in
    time": after two overlapping calls, what is shown is what the call that
    resolved last shows when it runs alone. *)
Definition shown (st : State) : bool * value * option string :=
  (loading st, result st, error st).

Definition last_resolved_wins : Prop :=
  forall first second r_first r_second,
    shown (ui (handle_all boot
                 ([Submit first; Submit second] ++
                  delivery 1 r_second ++ delivery 0 r_first))) =
    shown (ui (submit boot first r_first)).

End WithHost.

(** *** Sample replies *)

Definition http_ok : Response := {| status := 200; text := "" |}.

Definition succeeded (data : value) : reply :=
  Answered http_ok (Fulfilled (VObj [("success", VBool true); ("data", data)])).

Definition failed (message : string) : reply :=
  Answered http_ok
    (Fulfilled (VObj [("success", VBool false); ("error", VStr message)])).

Definition query (ticker : string) : StockInput :=
  {| emiten := ticker; fromDate := today; toDate := today |}.

End Orchestrator.

(** ** The report as text *)

Module Lines.

(** [s.includes(c)] *)
Fixpoint contains (c : ascii) (s : string) : bool :=
  match s with
  | EmptyString => false
  | String c' s' => Ascii.eqb c' c || contains c s'
  end.

(** [s.split(c)]: the pieces of [s] between the occurrences of [c]. *)
Fixpoint split (c : ascii) (s : string) : list string :=
  match s with
  | EmptyString => [""]
  | String c' s' =>
      if Ascii.eqb c' c then "" :: split c s'
      else match split c s' with
           | [] => [String c' ""]
           | piece :: pieces => String c' piece :: pieces
           end
  end.

Definition newline : ascii := ascii_of_nat 10.

(** No line holds a line break. *)
Definition single_lines (ls : list string) : bool :=
  forallb (fun l => negb (contains newline l)) ls.

End Lines.

(** ** What the component renders *)

Module View.
Import Number JS Serializer Orchestrator.

(** A JSX attribute: a string literal, an expression in braces, or a
    function of the component. *)
Inductive attribute : Type :=
  | Literal (s : string)
  | Expression (v : value)
  | Handler (name : string).

(** A React element: text, a DOM element with its attributes (a key of
    [style] is written [style.key]) and children, a component of another
    file with its props, or a fragment. *)
#[warnings="-register-all"]
Inductive node : Type :=
  | Text (s : string)
  | Element (tag : string) (attributes : list (string * attribute))
      (children : list node)
  | Component (name : string) (props : list (string * attribute))
  | Fragment (children : list node).

(** What [{x && (...)}] leaves when [x] is falsy: [x] itself, of which
    React shows a number and nothing else. *)
Definition falsy_child (x : value) : list node :=
  match x with
  | VNum n => [Text (Number.toString n)]
  | _ => []
  end.

Definition and_then {A B : Type} (c : completion A) (f : A -> completion B) :
  completion B :=
  match c with
  | inl e => inl e
  | inr a => f a
  end.

Definition of_prop (selectedStock : prop) : value :=
  match selectedStock with
  | Absent => VUndefined
  | IsNull => VNull
  | Str s => VStr s
  end.

Definition title : node :=
  Element "div" [("className", Literal "text-center mb-4")]
    [ Element "h1" [] [Text "📈 Stock Target Calculator"];
      Element "p" [("className", Literal "text-secondary");
                   ("style.fontSize", Literal "1.125rem")]
        [Text "Analyze stock targets based on broker data from Stockbit"] ].

Definition form (selectedStock : prop) (st : State) : node :=
  Component "InputForm"
    [("onSubmit", Handler "handleSubmit");
     ("loading", Expression (VBool (loading st)));
     ("initialEmiten", Expression (of_prop selectedStock))].

(** [{loading && (...)}] *)
Definition spinner (st : State) : list node :=
  if loading st then
    [ Element "div" [("className", Literal "text-center mt-4")]
        [ Element "div" [("className", Literal "spinner");
                         ("style.margin", Literal "0 auto")] [];
          Element "p" [("className", Literal "text-secondary mt-2")]
            [Text "Fetching data from Stockbit..."] ] ]
  else [].

(** [{error && (...)}]: the empty string is falsy and shows nothing. *)
Definition error_card (st : State) : list node :=
  match error st with
  | None => []
  | Some message =>
      if String.eqb message "" then []
      else
        [ Element "div"
            [("className", Literal "glass-card mt-4");
             ("style.background", Literal "rgba(245, 87, 108, 0.1)");
             ("style.borderColor", Literal "var(--accent-warning)")]
            [ Element "h3" [] [Text "❌ Error"];
              Element "p" [("style.color", Literal "var(--accent-warning)")]
                [Text message] ] ]
  end.

Definition copy_button (copied : bool) : node :=
  Element "button"
    [("onClick", Handler "handleCopy");
     ("className", Literal "btn btn-primary");
     ("style.display", Literal "inline-flex");
     ("style.alignItems", Literal "center");
     ("style.gap", Literal "0.5rem");
     ("style.padding", Literal "1rem 2rem");
     ("style.fontSize", Literal "1rem");
     ("style.fontWeight", Literal "600");
     ("style.background",
      Literal (if copied then "var(--gradient-success)"
               else "var(--gradient-primary)"));
     ("style.transition", Literal "all 0.3s ease")]
    [ if copied
      then Fragment [Element "span" [] [Text "✓"];
                     Element "span" [] [Text "Copied!"]]
      else Fragment [Element "span" [] [Text "📋"];
                     Element "span" [] [Text "Copy All Data"]] ].

(** The block of a truthy [result], once its props are read. *)
Definition result_card
    (result stockbitData marketData calculated harga targetRealistis1 targetMax : value)
    (copied : bool) : node :=
  Element "div" [("style.marginTop", Literal "2rem")]
    [ Element "div" [("style.marginBottom", Literal "2rem");
                     ("style.display", Literal "flex");
                     ("style.justifyContent", Literal "center")]
        [Component "CompactResultCard" [("result", Expression result)]];
      Component "BrokerCard" [("data", Expression stockbitData)];
      Element "div" [("style.marginTop", Literal "1.5rem")]
        [Component "ResultTable" [("marketData", Expression marketData);
                                  ("calculated", Expression calculated)]];
      Element "div" [("style.marginTop", Literal "1.5rem")]
        [Component "TargetCard" [("currentPrice", Expression harga);
                                 ("targetRealistis", Expression targetRealistis1);
                                 ("targetMax", Expression targetMax)]];
      Element "div" [("style.marginTop", Literal "1.5rem");
                     ("style.textAlign", Literal "center")]
        [ copy_button copied;
          Element "p" [("style.marginTop", Literal "0.5rem");
                       ("style.fontSize", Literal "0.875rem");
                       ("style.color", Literal "var(--text-secondary)")]
            [Text "Copy all emiten data and calculations for easy sharing"] ] ].

Section WithHost.
Variable h : Host.

(** [{result && (...)}]: the props are read in the order of the source;
    [result.marketData.harga] and [result.calculated.targetRealistis1]
    throw when [marketData] or [calculated] is missing. *)
Definition result_block (st : State) : completion (list node) :=
  let result := result st in
  if ToBoolean result then
    and_then (Get h result "stockbitData") (fun stockbitData =>
    and_then (Get h result "marketData") (fun marketData =>
    and_then (Get h result "calculated") (fun calculated =>
    and_then (Get h marketData "harga") (fun harga =>
    and_then (Get h calculated "targetRealistis1") (fun targetRealistis1 =>
    and_then (Get h calculated "targetMax") (fun targetMax =>
    inr [result_card result stockbitData marketData calculated
           harga targetRealistis1 targetMax (copied st)]))))))
  else inr (falsy_child result).

Definition page (selectedStock : prop) (st : State) (results : list node) : node :=
  Element "div" [("className", Literal "container")]
    ([title; form selectedStock st] ++ spinner st ++ error_card st ++ results)%list.

(** The element that [Calculator] returns, or what its render throws. *)
Definition view (selectedStock : prop) (st : State) : completion node :=
  and_then (result_block st) (fun results => inr (page selectedStock st results)).

End WithHost.

End View.

(** ** One call at a time *)

Module Lifecycle.
Import JS Serializer Orchestrator.

(** A request is in flight. *)
Definition in_flight (w : World) : Prop :=
  exists id t, tasks w !! id = Some t /\ is_request t = true.

(** The event makes the component call [handleSubmit]. *)
Definition starts (w : World) (e : event) : bool :=
  match e with
  | Submit _ => true
  | Render selectedStock =>
      changed w selectedStock &&
      match truthy selectedStock with
      | Some _ => true
      | None => false
      end
  | _ => false
  end.

(** The event belongs to the copy button. *)
Definition of_copy (e : event) : bool :=
  match e with
  | Copy | WriteTextSettled _ _ | TimeoutFired _ => true
  | _ => false
  end.

(** The event tells the outcome of the request of call [id]: its fetch
    is rejected, or the body of its response is settled. *)
Definition tells (id : nat) (e : event) : bool :=
  match e with
  | FetchSettled id' (Rejected _) | JsonSettled id' _ => (id' =? id)%nat
  | _ => false
  end.

(** The merges of two lists, each keeping its order. *)
Inductive interleaved {A : Type} : list A -> list A -> list A -> Prop :=
  | interleaved_nil : interleaved [] [] []
  | interleaved_left x xs ys zs :
      interleaved xs ys zs -> interleaved (x :: xs) ys (x :: zs)
  | interleaved_right y xs ys zs :
      interleaved xs ys zs -> interleaved xs (y :: ys) (y :: zs).

(** No two requests are in flight. *)
Definition at_most_one (w : World) : Prop :=
  forall id id' t t',
    tasks w !! id = Some t -> is_request t = true ->
    tasks w !! id' = Some t' -> is_request t' = true -> id = id'.

Section WithHost.
Variable h : Host.

(** The worlds reached when [handleSubmit] is only called while no request
    is in flight. *)
Inductive one_at_a_time : World -> Prop :=
  | one_boot : one_at_a_time boot
  | one_handle w e :
      one_at_a_time w -> (starts w e = true -> idle w) ->
      one_at_a_time (handle h w e).

(** What an event does to the requests and to what is shown. *)
Inductive transition (w : World) (e : event) (w' : World) : Prop :=
  (** nothing: the requests stay, and so does what is shown; only an
      event of the copy button may change the state at all *)
  | stays :
      starts w e = false ->
      shown (ui w') = shown (ui w) ->
      (of_copy e = false -> ui w' = ui w) ->
      (forall id t, is_request t = true ->
         (tasks w' !! id = Some t <-> tasks w !! id = Some t)) ->
      transition w e w'
  (** a call of [handleSubmit] starts *)
  | begins data :
      starts w e = true -> of_copy e = false ->
      ui w' = begin (ui w) ->
      (forall id t, is_request t = true ->
         (tasks w' !! id = Some t <->
          (id = fresh w /\ t = OnFetch (request_of data) (fetched h)) \/
          tasks w !! id = Some t)) ->
      transition w e w'
  (** the response of call [id] has come, its body is awaited *)
  | proceeds id request response :
      starts w e = false -> of_copy e = false ->
      tasks w !! id = Some (OnFetch request (fetched h)) ->
      ui w' = ui w ->
      (forall id' t, is_request t = true ->
         (tasks w' !! id' = Some t <->
          (id' = id /\ t = OnJson response (parsed h)) \/
          (id' <> id /\ tasks w !! id' = Some t))) ->
      transition w e w'
  (** the request of call [id] tells its outcome *)
  | concludes id t c :
      starts w e = false -> of_copy e = false ->
      tasks w !! id = Some t -> is_request t = true ->
      ui w' = conclude c (ui w) ->
      (forall id' t', is_request t' = true ->
         (tasks w' !! id' = Some t' <->
          id' <> id /\ tasks w !! id' = Some t')) ->
      transition w e w'.

(** Handling [es] from [w], no event starts a call of [handleSubmit] (a
    render that triggers nothing may come) and none tells the outcome of
    the request of call [id]. *)
Fixpoint undisturbed (id : nat) (w : World) (es : list event) : bool :=
  match es with
  | [] => true
  | e :: es' =>
      negb (starts w e) && negb (tells id e) &&
      undisturbed id (handle h w e) es'
  end.

(** What an answer to a request does to the state: the last answer of a
    call concludes it (the verdict does not look at the response). *)
Definition told (e : event) (st : State) : State :=
  match e with
  | FetchSettled _ (Rejected err) => conclude (inl err) st
  | JsonSettled _ body => conclude (verdict h (Answered http_ok body)) st
  | _ => st
  end.

(** The answers still to come for call [id], by what it awaits in [w]. *)
Inductive awaits (id : nat) (w : World) : list event -> Prop :=
  | awaits_nothing : awaits id w []
  | awaits_rejection request e :
      tasks w !! id = Some (OnFetch request (fetched h)) ->
      awaits id w [FetchSettled id (Rejected e)]
  | awaits_response request response body :
      tasks w !! id = Some (OnFetch request (fetched h)) ->
      awaits id w [FetchSettled id (Fulfilled response); JsonSettled id body]
  | awaits_body response body :
      tasks w !! id = Some (OnJson response (parsed h)) ->
      awaits id w [JsonSettled id body].

End WithHost.

(** *** Samples *)

(** A second analysis, of BBRI. *)
Definition bbri : StockAnalysisResult := {|
  input := {| emiten := "bbri"; fromDate := "2024-01-01"; toDate := "2024-01-31" |};
  stockbitData := {| bandar := "AK"; barangBandar := price 830000;
                     rataRataBandar := price 5400 |};
  marketData := {| harga := price 5500; offerTeratas := price 5525;
                   bidTerbawah := price 5475; fraksi := price 25;
                   totalBid := price 987600; totalOffer := price 1500000 |};
  calculated := {| totalPapan := price 24876; rataRataBidOfer := price 12438;
                   a := price 270; p := price 66;
                   targetRealistis1 := price 5750; targetMax := price 6100 |};
|}.

(** The analysis of BBCA has come and is shown. *)
Definition analysed : World :=
  submit enUS boot (query "BBCA") (succeeded (of_StockAnalysisResult bbca)).

(** A request for BBCA is in flight. *)
Definition asking : World := handle enUS boot (Submit (query "BBCA")).

End Lifecycle.

(** * Facts *)

#[local] Arguments String.append !s1 s2 : simpl nomatch.

Module DigitsFacts.
Import Digits.

Lemma append_assoc (a b c : string) : (a +:+ b) +:+ c = a +:+ (b +:+ c).
Proof. induction a as [|x a IH]; simpl; [reflexivity | now rewrite IH]. Qed.

Lemma length_append (a b : string) :
  String.length (a +:+ b) = (String.length a + String.length b)%nat.
Proof. induction a as [|x a IH]; simpl; [reflexivity | now rewrite IH]. Qed.

Lemma take_append (a b : string) : take (String.length a) (a +:+ b) = a.
Proof. induction a as [|x a IH]; simpl; [now destruct b | now rewrite IH]. Qed.

Lemma drop_append (a b : string) : drop (String.length a) (a +:+ b) = b.
Proof. induction a as [|x a IH]; simpl; [now destruct b | exact IH]. Qed.

Lemma digits_acc_append (fuel : nat) :
  forall n acc, digits_acc fuel n acc = digits_acc fuel n "" +:+ acc.
Proof.
  induction fuel as [|fuel IH]; intros n acc; simpl; [reflexivity|].
  destruct (n <? 10); [reflexivity|].
  rewrite (IH _ (String _ acc)), (IH _ (String _ "")), append_assoc.
  reflexivity.
Qed.

Lemma digits_acc_fuel (f1 : nat) :
  forall (f2 : nat) n acc,
    (1 <= f1 <= f2)%nat -> 0 <= n < 10 ^ Z.of_nat f1 ->
    digits_acc f2 n acc = digits_acc f1 n acc.
Proof.
  induction f1 as [|f1 IH]; intros f2 n acc Hf Hn; [lia|].
  destruct f2 as [|f2]; [lia|]. simpl.
  destruct (n <? 10) eqn:Hlt; [reflexivity|].
  apply Z.ltb_ge in Hlt.
  rewrite Nat2Z.inj_succ, Z.pow_succ_r in Hn by lia.
  destruct f1 as [|f1']; [simpl in Hn; lia|].
  apply IH; [lia|].
  split; [apply Z.div_pos; lia|].
  apply Z.div_lt_upper_bound; lia.
Qed.

Lemma decimal_fuel (n : Z) :
  0 <= n -> n < 10 ^ Z.of_nat (S (Z.to_nat (Z.log2 n))).
Proof.
  intros Hn.
  rewrite Nat2Z.inj_succ, Z2Nat.id by apply Z.log2_nonneg.
  destruct (Z.eq_dec n 0) as [->|Hne]; [reflexivity|].
  assert (Hlog : n < 2 ^ Z.succ (Z.log2 n)) by (apply Z.log2_spec; lia).
  eapply Z.lt_le_trans; [exact Hlog|].
  apply Z.pow_le_mono_l. pose proof (Z.log2_nonneg n). lia.
Qed.

Lemma decimal_digit (n : Z) : 0 <= n < 10 -> decimal n = String (digit n) "".
Proof.
  intros Hn. unfold decimal. simpl.
  destruct (n <? 10) eqn:Hlt; [|apply Z.ltb_ge in Hlt; lia].
  now rewrite Z.mod_small.
Qed.

Lemma decimal_step (n : Z) :
  10 <= n -> decimal n = decimal (n / 10) +:+ String (digit (n mod 10)) "".
Proof.
  intros Hn. unfold decimal at 1. simpl.
  destruct (n <? 10) eqn:Hlt; [apply Z.ltb_lt in Hlt; lia|].
  rewrite digits_acc_append. f_equal.
  unfold decimal. apply digits_acc_fuel.
  - assert (Z.log2 (n / 10) < Z.log2 n); [|pose proof (Z.log2_nonneg (n / 10)); lia].
    assert (0 < n / 10) by (apply Z.div_str_pos; lia).
    apply Z.log2_lt_pow2; [lia|].
    assert (Hup : n < 2 ^ Z.succ (Z.log2 n)) by (apply Z.log2_spec; lia).
    rewrite Z.pow_succ_r in Hup by apply Z.log2_nonneg.
    apply Z.div_lt_upper_bound; lia.
  - split; [apply Z.div_pos; lia|]. apply decimal_fuel. apply Z.div_pos; lia.
Qed.

Lemma decimal_two_digits (n : Z) :
  10 <= n < 100 ->
  decimal n = String (digit (n / 10)) (String (digit (n mod 10)) "").
Proof.
  intros Hn. rewrite decimal_step by lia.
  rewrite decimal_digit; [reflexivity|].
  split; [apply Z.div_pos; lia | apply Z.div_lt_upper_bound; lia].
Qed.

Lemma decimal_hundreds (n : Z) :
  100 <= n ->
  decimal n =
  decimal (n / 100) +:+ String (digit (n / 10 mod 10)) (String (digit (n mod 10)) "").
Proof.
  intros Hn. rewrite decimal_step by lia.
  assert (10 <= n / 10) by (apply Z.div_le_lower_bound; lia).
  rewrite (decimal_step (n / 10)) by lia.
  rewrite Z.div_div by lia. simpl (10 * 10).
  now rewrite append_assoc.
Qed.

(** The digits of [decimal] are digits, and read back they give the
    number. *)
Lemma digit_is_digit (d : Z) :
  0 <= d < 10 ->
  is_digit (digit d) = true /\ Z.of_nat (nat_of_ascii (digit d)) - 48 = d.
Proof.
  intros Hd. unfold is_digit, digit.
  rewrite nat_ascii_embedding by lia.
  split; [|lia].
  apply andb_true_intro. split; apply Nat.leb_le; lia.
Qed.

Lemma value_acc_append (a b : string) :
  forall acc, value_acc (a +:+ b) acc = value_acc b (value_acc a acc).
Proof. induction a as [|x a IH]; intros acc; simpl; [reflexivity | apply IH]. Qed.

Lemma all_digits_append (a b : string) :
  all_digits (a +:+ b) = all_digits a && all_digits b.
Proof.
  induction a as [|x a IH]; simpl; [reflexivity|].
  now rewrite IH, andb_assoc.
Qed.

Lemma decimal_reads_back (n : Z) :
  0 <= n -> all_digits (decimal n) = true /\ value (decimal n) = n.
Proof.
  intros Hn. pattern n. apply Zlt_0_ind; [|exact Hn].
  clear n Hn. intros n IH Hn.
  destruct (Z.lt_ge_cases n 10) as [Hsmall|Hbig].
  - rewrite decimal_digit by lia.
    destruct (digit_is_digit n) as [Hd Hv]; [lia|].
    unfold value. cbn [all_digits value_acc]. rewrite Hd, Hv.
    split; [reflexivity | lia].
  - rewrite decimal_step by lia.
    assert (Hq : 0 <= n / 10 < n).
    { split; [apply Z.div_pos; lia | apply Z.div_lt; lia]. }
    destruct (IH (n / 10) Hq) as [Hall Hval].
    destruct (digit_is_digit (n mod 10)) as [Hd Hv];
      [apply Z.mod_pos_bound; lia|].
    split.
    + rewrite all_digits_append, Hall. cbn [all_digits]. now rewrite Hd.
    + unfold value in *. rewrite value_acc_append, Hval. cbn [value_acc].
      rewrite Hv. pose proof (Z.div_mod n 10 ltac:(lia)). lia.
Qed.

End DigitsFacts.

Module NumberFacts.
Import Digits Number DigitsFacts.

Lemma fixed_digits_two (n : Z) :
  0 <= n ->
  fixed_digits n 2 =
  decimal (n / 100) +:+ "." +:+
  String (digit (n / 10 mod 10)) (String (digit (n mod 10)) "").
Proof.
  intros Hn. unfold fixed_digits.
  destruct (Z.lt_ge_cases n 10) as [H10|H10];
    [|destruct (Z.lt_ge_cases n 100) as [H100|H100]].
  - rewrite (decimal_digit n) by lia.
    rewrite (Z.div_small n 100), (Z.div_small n 10), (Z.mod_small n 10) by lia.
    rewrite (decimal_digit 0) by lia. reflexivity.
  - rewrite (decimal_two_digits n) by lia.
    rewrite (Z.div_small n 100) by lia.
    rewrite (decimal_digit 0) by lia.
    rewrite (Z.mod_small (n / 10)); [reflexivity|].
    split; [apply Z.div_pos; lia | apply Z.div_lt_upper_bound; lia].
  - rewrite (decimal_hundreds n) by lia.
    set (high := decimal (n / 100)).
    set (low := String (digit (n / 10 mod 10)) (String (digit (n mod 10)) "")).
    rewrite length_append.
    replace (String.length high + String.length low <=? 2)%nat with false.
    + change (Nat.eqb 2 0) with false. cbv iota.
      rewrite length_append.
      replace (String.length high + String.length low - 2)%nat
        with (String.length high) by (simpl; lia).
      now rewrite take_append, drop_append.
    + symmetry. apply Nat.leb_gt.
      assert (String.length high <> 0)%nat; [|simpl; lia].
      unfold high.
      assert (1 <= n / 100) by (apply Z.div_le_lower_bound; lia).
      destruct (Z.lt_ge_cases (n / 100) 10).
      * now rewrite decimal_digit by lia.
      * rewrite decimal_step by lia. rewrite length_append. simpl. lia.
Qed.

Lemma fraction_positive (m : positive) (e : Z) :
  0 < fst (fraction m e) /\ 0 < snd (fraction m e).
Proof.
  unfold fraction. destruct (0 <=? e) eqn:He; simpl.
  - apply Z.leb_le in He. split; [|lia].
    apply Z.mul_pos_pos; [lia | apply Z.pow_pos_nonneg; lia].
  - apply Z.leb_gt in He. split; [lia | apply Z.pow_pos_nonneg; lia].
Qed.

Lemma round_half_up_nonneg (p q f : Z) :
  0 < p -> 0 < q -> 0 <= f -> 0 <= round_half_up p q f.
Proof.
  intros Hp Hq Hf. unfold round_half_up.
  apply Z.div_pos; [|lia].
  assert (0 < 10 ^ f) by (apply Z.pow_pos_nonneg; lia). nia.
Qed.

(** [toFixed(2)] of a finite number below [10 ^ 21] in magnitude is its
    sign and the nearest hundredth, written with two decimal digits. *)
Lemma toFixed_two (s : bool) (m : positive) (e : Z) :
  fst (fraction m e) < 10 ^ 21 * snd (fraction m e) ->
  toFixed (S754_finite s m e) 2 =
  two_decimals s (round_half_up (fst (fraction m e)) (snd (fraction m e)) 2).
Proof.
  intros Hsmall. unfold toFixed, two_decimals.
  destruct (fraction_positive m e) as [Hp Hq].
  destruct (fraction m e) as [p q]. simpl fst in *. simpl snd in *.
  destruct (10 ^ 21 * q <=? p) eqn:Hbig; [apply Z.leb_le in Hbig; lia|].
  rewrite fixed_digits_two by (apply round_half_up_nonneg; lia).
  reflexivity.
Qed.

(** The two decimal digits and the integer part of [two_decimals] read
    back as the hundredths [n]. *)
Lemma two_decimals_read_back (n : Z) :
  0 <= n ->
  value (decimal (n / 100)) * 100 +
  value (String (digit (n / 10 mod 10)) (String (digit (n mod 10)) "")) = n.
Proof.
  intros Hn.
  assert (Hhigh : 0 <= n / 100) by (apply Z.div_pos; lia).
  destruct (decimal_reads_back (n / 100) Hhigh) as [_ ->].
  destruct (digit_is_digit (n / 10 mod 10)) as [_ H1];
    [apply Z.mod_pos_bound; lia|].
  destruct (digit_is_digit (n mod 10)) as [_ H0];
    [apply Z.mod_pos_bound; lia|].
  unfold value. cbn [value_acc]. rewrite H1, H0.
  pose proof (Z.div_mod n 10 ltac:(lia)) as Hn10.
  pose proof (Z.div_mod (n / 10) 10 ltac:(lia)) as Hn100.
  rewrite Z.div_div in Hn100 by lia. change (10 * 10) with 100 in Hn100.
  lia.
Qed.

(** The conversions on values whose JavaScript output is well known. *)
Example toString_known :
  map toString
    [of_Z 9500; of_decimal 1 (-1); of_decimal 15 (-1); of_decimal 1 21;
     of_decimal 1 20; of_decimal 1 (-6); of_decimal 1 (-7);
     of_decimal 5 (-324); of_decimal 17976931348623157 292;
     of_decimal 9007199254740993 0; div (of_Z 1) (of_Z 3);
     SFopp (of_decimal 1255 (-1)); div (of_Z 1) (of_Z 0); div (of_Z 0) (of_Z 0)] =
  ["9500"; "0.1"; "1.5"; "1e+21"; "100000000000000000000"; "0.000001"; "1e-7";
   "5e-324"; "1.7976931348623157e+308"; "9007199254740992";
   "0.3333333333333333"; "-125.5"; "Infinity"; "NaN"].
Proof. vm_compute. reflexivity. Qed.

Example toFixed_known :
  map (fun x => toFixed x 2)
    [of_decimal 1005 (-3); of_decimal 125 (-3); of_decimal 123456 (-2);
     SFopp (of_decimal 1 (-3)); S754_zero true; of_decimal 1 21;
     div (of_Z 1) (of_Z 0)] =
  ["1.00"; "0.13"; "1234.56"; "-0.00"; "0.00"; "1e+21"; "Infinity"].
Proof. vm_compute. reflexivity. Qed.

Example toLocaleString_enUS_known :
  map JS.toLocaleString_enUS
    [of_Z 1234567; of_Z 1000; of_Z 999; of_decimal 12345678 (-4);
     of_decimal 5 (-1); SFopp (of_decimal 15 (-1)); S754_nan] =
  ["1,234,567"; "1,000"; "999"; "1,234.568"; "0.5"; "-1.5"; "NaN"].
Proof. vm_compute. reflexivity. Qed.

End NumberFacts.

Module SerializerFacts.
Import Digits Number JS Serializer DigitsFacts NumberFacts.

Lemma two_decimals_not_Infinity (negative : bool) (n : Z) :
  two_decimals negative n <> "Infinity".
Proof.
  unfold two_decimals. rewrite <- append_assoc.
  generalize ((if negative then "-" else "") +:+ decimal (n / 100)).
  intros whole H.
  repeat (destruct whole as [|? whole]; simpl in H;
          [discriminate H | first [discriminate H | injection H as _ H]]).
Qed.

(** C5, counterexample: at the price 0 the gain is [Infinity], which
    [toFixed] renders without decimal digits. *)
Lemma gain_at_price_zero :
  line enUS 23 bbca_suspended = "Target Min: 9500 (+Infinity%)" /\
  ~ (exists negative n,
       calculateGain (marketData bbca_suspended)
         (targetRealistis1 (calculated bbca_suspended)) =
       two_decimals negative n).
Proof.
  split; [vm_compute; reflexivity|].
  intros (negative & n & H).
  apply (two_decimals_not_Infinity negative n). rewrite <- H.
  vm_compute. reflexivity.
Qed.

(** [round_half_up p q 2] is the integer nearest to [100 * p / q], the
    larger of two. *)
Lemma round_half_up_nearest (p q : Z) :
  0 < q ->
  2 * round_half_up p q 2 * q <= 200 * p + q < 2 * (round_half_up p q 2 + 1) * q.
Proof.
  intros Hq. unfold round_half_up. change (10 ^ 2) with 100.
  pose proof (Z.div_mod (2 * p * 100 + q) (2 * q) ltac:(lia)) as Hdiv.
  pose proof (Z.mod_pos_bound (2 * p * 100 + q) (2 * q) ltac:(lia)) as Hmod.
  nia.
Qed.

(** C5, amended: whenever the gain [((target - harga) / harga) * 100] is a
    finite number below [10 ^ 21] in magnitude, [calculateGain] renders its
    sign and its nearest hundredth (the integer [n] with
    [n <= 100 * |gain| + 1/2 < n + 1]) with exactly two decimal digits, and
    each target line shows it between an unconditional [(+] and [%)], so
    that a negative gain reads [+-X.XX%]; a gain of zero, of either sign
    (a target equal to the price), reads [+0.00%]; at the price 9000 the
    target 9500 renders [+5.56%] and the target 8500 renders [+-5.56%]. *)
Theorem gain_two_decimals :
  (forall (h : Host) (r : StockAnalysisResult) (target : field)
          (s : bool) (m : positive) (e : Z),
      gain (marketData r) target = S754_finite s m e ->
      fst (fraction m e) < 10 ^ 21 * snd (fraction m e) ->
      let hundredths :=
        round_half_up (fst (fraction m e)) (snd (fraction m e)) 2 in
      (2 * hundredths * snd (fraction m e) <=
       200 * fst (fraction m e) + snd (fraction m e) <
       2 * (hundredths + 1) * snd (fraction m e)) /\
      calculateGain (marketData r) target = two_decimals s hundredths /\
      (target = targetRealistis1 (calculated r) ->
       line h 23 r =
       "Target Min: " +:+ template target +:+ " (+" +:+
       two_decimals s hundredths +:+ "%)") /\
      (target = targetMax (calculated r) ->
       line h 24 r =
       "Target Max: " +:+ template target +:+ " (+" +:+
       two_decimals s hundredths +:+ "%)")) /\
  (forall (h : Host) (r : StockAnalysisResult) (target : field) (s : bool),
      gain (marketData r) target = S754_zero s ->
      calculateGain (marketData r) target = two_decimals false 0 /\
      two_decimals false 0 = "0.00" /\
      (target = targetRealistis1 (calculated r) ->
       line h 23 r = "Target Min: " +:+ template target +:+ " (+0.00%)") /\
      (target = targetMax (calculated r) ->
       line h 24 r = "Target Max: " +:+ template target +:+ " (+0.00%)")) /\
  line enUS 23 bbca = "Target Min: 9500 (+5.56%)" /\
  line enUS 24 bbca = "Target Max: 8500 (+-5.56%)".
Proof.
  split; [|split; [|split; vm_compute; reflexivity]].
  - intros h r target s m e Hgain Hsmall hundredths.
    split.
    { apply round_half_up_nearest. now destruct (fraction_positive m e). }
    assert (Hfixed : calculateGain (marketData r) target = two_decimals s hundredths).
    { unfold calculateGain. rewrite Hgain. now apply toFixed_two. }
    split; [exact Hfixed|].
    destruct r as [i sb md c].
    split; intros ->; unfold line; simpl; simpl in Hfixed; now rewrite Hfixed.
  - intros h r target s Hgain.
    assert (Hfixed : calculateGain (marketData r) target = "0.00").
    { unfold calculateGain. now rewrite Hgain. }
    split; [exact Hfixed|]. split; [reflexivity|].
    destruct r as [i sb md c].
    split; intros ->; unfold line; simpl; simpl in Hfixed; now rewrite Hfixed.
Qed.

Lemma gain_two_decimals_witness :
  calculateGain (marketData bbca) (price 9500) = two_decimals false 556 /\
  calculateGain (marketData bbca) (price 9000) = two_decimals false 0.
Proof.
  split.
  - refine (proj1 (proj2 (proj1 gain_two_decimals enUS bbca (price 9500) false
                            6254999482459022%positive (-50) _ _))).
    + vm_compute. reflexivity.
    + vm_compute. reflexivity.
  - refine (proj1 (proj1 (proj2 gain_two_decimals) enUS bbca (price 9000) false _)).
    vm_compute. reflexivity.
Defined.

(** C4, counterexample: the targets are substituted as they are, without
    grouping and without placeholder, and the two volumes are divided by
    100 before [formatNumber] looks at them. *)
Lemma targets_and_volumes_unformatted :
  (line enUS 23 bbca = "Target Min: 9500 (+5.56%)" /\
   spec_number enUS (targetRealistis1 (calculated bbca)) = "9,500") /\
  (line enUS 13 bbca_missing = "Total Bid: NaN" /\
   line enUS 14 bbca_missing = "Total Offer: 0" /\
   line enUS 24 bbca_missing = "Target Max: null (+-100.00%)") /\
  lines enUS bbca <> spec_lines enUS bbca /\
  lines enUS bbca_missing <> spec_lines enUS bbca_missing.
Proof.
  repeat split; try (vm_compute; reflexivity);
    intros H; vm_compute in H; discriminate H.
Qed.

(** C4, amended: each of the ten fields that [formatNumber] receives as it
    is stored (lot quantity, average price, price, best offer, best bid,
    tick size, total board, average bid/offer, [a], [p]) renders as the
    placeholder [-] when it is [null] or [undefined] and through the host's
    [toLocaleString] when it is a number; a [null] lot quantity gives the
    line [Barang Bandar: - lot]; a bid or offer volume that is a number
    renders through [toLocaleString] after the division by 100. *)
Theorem placeholder_for_missing_numbers (h : Host) (r : StockAnalysisResult) :
  (line h 5 r = "Barang Bandar: " +:+ spec_number h (barangBandar (stockbitData r)) +:+ " lot" /\
   line h 6 r = "Rata-rata Harga: Rp " +:+ spec_number h (rataRataBandar (stockbitData r)) /\
   line h 9 r = "Harga: Rp " +:+ spec_number h (harga (marketData r)) /\
   line h 10 r = "Offer Max: Rp " +:+ spec_number h (offerTeratas (marketData r)) /\
   line h 11 r = "Bid Min: Rp " +:+ spec_number h (bidTerbawah (marketData r)) /\
   line h 12 r = "Fraksi: " +:+ spec_number h (fraksi (marketData r)) /\
   line h 17 r = "Total Papan: " +:+ spec_number h (totalPapan (calculated r)) /\
   line h 18 r = "Rata² Bid/Offer: " +:+ spec_number h (rataRataBidOfer (calculated r)) /\
   line h 19 r = "a (5% dari rata² bandar): " +:+ spec_number h (a (calculated r)) /\
   line h 20 r = "p (Barang/Rata² Bid Offer): " +:+ spec_number h (p (calculated r))) /\
  (barangBandar (stockbitData r) = Null -> line h 5 r = "Barang Bandar: - lot") /\
  (forall x, totalBid (marketData r) = Num x ->
     line h 13 r = "Total Bid: " +:+ toLocaleString h (div x (of_Z 100))) /\
  (forall x, totalOffer (marketData r) = Num x ->
     line h 14 r = "Total Offer: " +:+ toLocaleString h (div x (of_Z 100))).
Proof.
  destruct r as [i [b bb rb] [hg ot bt fr tb to] c]. unfold line. simpl.
  repeat split; try reflexivity.
  - intros ->. reflexivity.
  - intros x ->. reflexivity.
  - intros x ->. reflexivity.
Qed.

Lemma placeholder_for_missing_numbers_witness :
  line enUS 5 bbca_missing = "Barang Bandar: - lot" /\
  line enUS 13 bbca = "Total Bid: " +:+ toLocaleString enUS (div (of_Z 1234500) (of_Z 100)).
Proof.
  pose proof (placeholder_for_missing_numbers enUS bbca_missing) as Hmissing.
  pose proof (placeholder_for_missing_numbers enUS bbca) as Hpresent.
  split.
  - apply Hmissing. reflexivity.
  - apply Hpresent. reflexivity.
Defined.

End SerializerFacts.

Module OrchestratorFacts.
Import Number JS Serializer Orchestrator.

Section WithHost.
Variable h : Host.

(** **** The continuations of [handleSubmit] *)

Lemma handle_Submit (w : World) (data : StockInput) :
  handle h w (Submit data) =
  suspend (fresh w) (OnFetch (request_of data) (fetched h))
    (with_ui begin (allocate w)).
Proof. reflexivity. Qed.

Lemma fetched_Rejected (e : thrown) (id : nat) (w : World) :
  run h id (fetched h (Rejected e)) w = with_ui (conclude (inl e)) w.
Proof. reflexivity. Qed.

Lemma fetched_Fulfilled (response : Response) :
  fetched h (Fulfilled response) = AwaitJson response (parsed h).
Proof. reflexivity. Qed.

Lemma parsed_settled (response : Response) (body : settled value) (id : nat) (w : World) :
  run h id (parsed h body) w =
  with_ui (conclude (verdict h (Answered response body))) w /\
  safe h (parsed h body).
Proof.
  destruct body as [json|e]; [|split; reflexivity].
  unfold parsed, fetched, handleSubmit, verdict.
  cbn -[Get ToBoolean new_Error logical_or].
  destruct (Get h json "success") as [e|success];
    cbn -[Get ToBoolean new_Error logical_or]; [split; reflexivity|].
  destruct (ToBoolean success); cbn -[Get ToBoolean new_Error logical_or].
  - destruct (Get h json "data") as [e|data]; split; reflexivity.
  - destruct (Get h json "error") as [e|error];
      cbn -[Get ToBoolean new_Error logical_or]; [split; reflexivity|].
    destruct (new_Error h _) as [e|err]; split; reflexivity.
Qed.

(** **** Worlds *)

Lemma resume_suspend_resume (id : nat) (t : task) (w : World) :
  resume id (suspend id t (resume id w)) = resume id w.
Proof.
  unfold resume, suspend. simpl. f_equal.
  now rewrite delete_insert_eq, delete_delete_eq.
Qed.

(** The request of a call that waits for its response meets [r]: the
    completion of the [try] block is concluded, and the call is over. *)
Lemma deliver (r : reply) (w : World) (id : nat) (request : Request) :
  tasks w !! id = Some (OnFetch request (fetched h)) ->
  handle_all h w (delivery id r) =
  with_ui (conclude (verdict h r)) (resume id w).
Proof.
  intros Hid. destruct r as [e|response body]; unfold handle_all; simpl.
  - now rewrite Hid.
  - rewrite Hid, fetched_Fulfilled. simpl.
    rewrite lookup_insert_eq.
    rewrite (proj1 (parsed_settled response body id _)).
    now rewrite resume_suspend_resume.
Qed.

Lemma submit_concludes (w : World) (data : StockInput) (r : reply) :
  submit h w data r =
  with_ui (fun st => conclude (verdict h r) (begin st))
    (resume (fresh w) (suspend (fresh w) (OnFetch (request_of data) (fetched h)) (allocate w))).
Proof.
  unfold submit. rewrite handle_Submit.
  erewrite deliver; [reflexivity|].
  simpl. apply lookup_insert_eq.
Qed.

Lemma Get_defined (json : value) (k k' : string) (v : value) :
  Get h json k = inr v -> exists v', Get h json k' = inr v'.
Proof. destruct json; simpl; intros H; try discriminate H; eauto. Qed.

(** **** One call of [handleSubmit] *)

(** C1: for every response payload whose [success] is [true],
    [handleSubmit] ends with the loading flag off, no error, and the stored
    result equal to the payload's [data] as it is. *)
Theorem success_stores_data
    (w : World) (data : StockInput) (response : Response) (json : value) :
  Get h json "success" = inr (VBool true) ->
  let w' := submit h w data (Answered response (Fulfilled json)) in
  loading (ui w') = false /\
  error (ui w') = None /\
  inr (result (ui w')) = Get h json "data" /\
  copied (ui w') = copied (ui w) /\
  tasks w' !! fresh w = None.
Proof.
  intros Hsuccess w'. subst w'. rewrite submit_concludes.
  destruct (Get_defined json "success" "data" _ Hsuccess) as [d Hd].
  unfold verdict. rewrite Hsuccess, Hd. simpl.
  repeat split. apply lookup_delete_eq.
Qed.

(** C2: for every response payload whose [success] is [false] or absent,
    [handleSubmit] ends with the loading flag off, no result, and the error
    message equal to the payload's [error] when that is a non-empty string,
    and to ['Failed to analyze stock'] when it is absent, [null] or
    empty. *)
Theorem failure_reports_error
    (w : World) (data : StockInput) (response : Response) (json : value) :
  Get h json "success" = inr (VBool false) \/
  Get h json "success" = inr VUndefined ->
  let w' := submit h w data (Answered response (Fulfilled json)) in
  loading (ui w') = false /\
  result (ui w') = VNull /\
  (forall message,
     Get h json "error" = inr (VStr message) -> message <> "" ->
     error (ui w') = Some message) /\
  (Get h json "error" = inr VUndefined \/
   Get h json "error" = inr VNull \/
   Get h json "error" = inr (VStr "") ->
   error (ui w') = Some "Failed to analyze stock") /\
  tasks w' !! fresh w = None.
Proof.
  intros Hsuccess w'. subst w'. rewrite submit_concludes.
  assert (Hfalse : exists success,
             Get h json "success" = inr success /\ ToBoolean success = false).
  { destruct Hsuccess as [H|H]; rewrite H; eauto. }
  destruct Hfalse as (success & Hget & Hfalsy).
  destruct (Get_defined json "success" "error" _ Hget) as [err Herr].
  unfold verdict. rewrite Hget, Hfalsy, Herr.
  split; [|split; [|split; [|split]]].
  - now destruct (new_Error h (logical_or err (VStr "Failed to analyze stock"))).
  - now destruct (new_Error h (logical_or err (VStr "Failed to analyze stock"))).
  - intros message Hmessage Hnonempty.
    assert (err = VStr message) as -> by congruence.
    unfold logical_or. simpl ToBoolean.
    destruct (String.eqb_spec message ""); [contradiction|]. reflexivity.
  - intros Hmissing.
    assert (ToBoolean err = false) as Hno.
    { destruct Hmissing as [H|[H|H]];
        [assert (err = VUndefined) as -> by congruence
        |assert (err = VNull) as -> by congruence
        |assert (err = VStr "") as -> by congruence]; reflexivity. }
    unfold logical_or. rewrite Hno. reflexivity.
  - simpl. apply lookup_delete_eq.
Qed.

(** C3: on every way out of [handleSubmit] (a result, a reported failure,
    an exception of [fetch] or of [json()]) the loading flag is [false]
    after the last transition, and the call is over. *)
Theorem loading_cleared (w : World) (data : StockInput) (r : reply) :
  loading (ui (handle h w (Submit data))) = true /\
  loading (ui (submit h w data r)) = false /\
  tasks (submit h w data r) !! fresh w = None.
Proof.
  rewrite submit_concludes. repeat split. apply lookup_delete_eq.
Qed.

(** C6: for every exception of [fetch] or of [json()], [handleSubmit] ends
    with the loading flag off, no result, and the error message equal to
    the [message] of the exception when it is an [Error] and to
    ['An error occurred'] otherwise. *)
Theorem exception_reports_message
    (w : World) (data : StockInput) (response : Response) (e : thrown) :
  let expected :=
    {| loading := false;
       result := VNull;
       error := Some (match e with
                      | Error message => message
                      | NotError _ => "An error occurred"
                      end);
       copied := copied (ui w) |} in
  ui (submit h w data (NoResponse e)) = expected /\
  ui (submit h w data (Answered response (Rejected e))) = expected.
Proof.
  rewrite !submit_concludes. split; reflexivity.
Qed.

End WithHost.

Lemma success_stores_data_witness :
  inr (result (ui (submit enUS boot (query "BBCA")
                     (succeeded (of_StockAnalysisResult bbca))))) =
  (inr (of_StockAnalysisResult bbca) : completion value).
Proof.
  exact (proj1 (proj2 (proj2
    (success_stores_data enUS boot (query "BBCA") http_ok
       (VObj [("success", VBool true); ("data", of_StockAnalysisResult bbca)])
       eq_refl)))).
Defined.

Lemma failure_reports_error_witness :
  error (ui (submit enUS boot (query "BBCA") (failed "Emiten not found"))) =
  Some "Emiten not found".
Proof.
  refine (proj1 (proj2 (proj2
    (failure_reports_error enUS boot (query "BBCA") http_ok
       (VObj [("success", VBool false); ("error", VStr "Emiten not found")])
       (or_introl eq_refl)))) "Emiten not found" eq_refl _).
  discriminate.
Defined.

Section Invariant.
Variable h : Host.

(** **** The tasks of a reachable world are the component's *)

Lemma safe_handleSubmit (data : StockInput) : safe h (handleSubmit h data).
Proof. reflexivity. Qed.

Lemma safe_fetched (o : settled Response) : safe h (fetched h o).
Proof. destruct o; reflexivity. Qed.

Lemma safe_parsed (o : settled value) : safe h (parsed h o).
Proof. exact (proj2 (parsed_settled h http_ok o 0 boot)). Qed.

Lemma handleCopy_cases (v : value) :
  handleCopy h v =
  if negb (ToBoolean v) then Return ()
  else match serialize h v with
       | inl err => ConsoleError "Failed to copy:" err (Return ())
       | inr data => AwaitWriteText data (written h)
       end.
Proof.
  unfold handleCopy. destruct (negb (ToBoolean v)); [reflexivity|].
  destruct (serialize h v); reflexivity.
Qed.

Lemma written_cases (o : settled unit) :
  written h o =
  match o with
  | Fulfilled _ =>
      SetState (set_copied true) (SetTimeout (set_copied false) 2000 (Return ()))
  | Rejected e => ConsoleError "Failed to copy:" e (Return ())
  end.
Proof. destruct o as [[]|e]; reflexivity. Qed.

Lemma safe_handleCopy (v : value) : safe h (handleCopy h v).
Proof.
  rewrite handleCopy_cases. destruct (negb (ToBoolean v)); [exact I|].
  destruct (serialize h v); simpl; auto.
Qed.

Lemma safe_written (o : settled unit) : safe h (written h o).
Proof. rewrite written_cases. destruct o; simpl; auto. Qed.

Lemma safe_effect (selectedStock : prop) : safe h (effect h selectedStock).
Proof.
  unfold effect. destruct (truthy selectedStock); [|exact I].
  intros d. reflexivity.
Qed.

Lemma run_well_formed (m : async unit) :
  forall (id : nat) (w : World),
    safe h m -> (id < fresh w)%nat ->
    well_formed h w -> well_formed h (run h id m w).
Proof.
  induction m as [a|e|f k IH|request k _|response k _|data k _
                 |callback delay k IH|label err k IH|k IH];
    intros id w Hsafe Hid Hw; simpl in *.
  - exact Hw.
  - exact Hw.
  - now apply IH.
  - intros id' t. simpl. rewrite lookup_insert.
    case_decide; [intros [= <-]; subst; now split | apply Hw].
  - intros id' t. simpl. rewrite lookup_insert.
    case_decide; [intros [= <-]; subst; now split | apply Hw].
  - intros id' t. simpl. rewrite lookup_insert.
    case_decide; [intros [= <-]; subst; now split | apply Hw].
  - destruct Hsafe as [Htimer Hk]. apply IH; [exact Hk | simpl; lia |].
    intros id' t. simpl. rewrite lookup_insert.
    case_decide; [intros [= <-]; subst; split; [lia | exact Htimer]|].
    intros Ht. destruct (Hw id' t Ht). split; [lia | assumption].
  - now apply IH.
  - now apply IH.
Qed.

Lemma call_well_formed (m : async unit) (w : World) :
  safe h m -> well_formed h w -> well_formed h (call h m w).
Proof.
  intros Hsafe Hw. unfold call. apply run_well_formed; [exact Hsafe | simpl; lia |].
  intros id t Ht. destruct (Hw id t Ht). simpl. split; [lia | assumption].
Qed.

Lemma resume_well_formed (id : nat) (w : World) :
  well_formed h w -> well_formed h (resume id w).
Proof.
  intros Hw id' t. simpl. rewrite lookup_delete.
  case_decide; [discriminate | apply Hw].
Qed.

Lemma handle_well_formed (w : World) (e : event) :
  well_formed h w -> well_formed h (handle h w e).
Proof.
  intros Hw. destruct e as [data|selectedStock| |id o|id o|id o|id]; simpl.
  - apply call_well_formed; [apply safe_handleSubmit | exact Hw].
  - destruct (changed w selectedStock); [|exact Hw].
    apply call_well_formed; [apply safe_effect | exact Hw].
  - apply call_well_formed; [apply safe_handleCopy | exact Hw].
  - destruct (tasks w !! id) as [[request k|?|?|?]|] eqn:Hid; try exact Hw.
    destruct (Hw id _ Hid) as [Hlt Hk]. simpl in Hk. subst k.
    apply run_well_formed;
      [apply safe_fetched | exact Hlt | now apply resume_well_formed].
  - destruct (tasks w !! id) as [[?|response k|?|?]|] eqn:Hid; try exact Hw.
    destruct (Hw id _ Hid) as [Hlt Hk]. simpl in Hk. subst k.
    apply run_well_formed;
      [apply safe_parsed | exact Hlt | now apply resume_well_formed].
  - destruct (tasks w !! id) as [[?|?|data k|?]|] eqn:Hid; try exact Hw.
    destruct (Hw id _ Hid) as [Hlt Hk]. simpl in Hk. subst k.
    apply run_well_formed;
      [apply safe_written | exact Hlt | now apply resume_well_formed].
  - destruct (tasks w !! id) as [[?|?|?|callback delay]|] eqn:Hid; try exact Hw.
    now apply (resume_well_formed id) in Hw.
Qed.

Lemma reachable_well_formed (w : World) :
  reachable h w -> well_formed h w.
Proof.
  induction 1 as [|w e _ IH].
  - intros id t Ht. simpl in Ht. now rewrite lookup_empty in Ht.
  - now apply handle_well_formed.
Qed.

(** **** The effect on [selectedStock] *)

Lemma Object_is_same (x : prop) : Object_is x x = true.
Proof. destruct x; simpl; auto. apply String.eqb_refl. Qed.

(** C8, amended: a [selectedStock] that differs from the one of the
    render before and is a non-empty string makes the component clear the
    result and the error and call [handleSubmit] with that ticker and with
    one default date, read once, as [fromDate] and as [toDate]; one that is
    [null], [undefined], the empty string, or the same as before triggers
    nothing. *)
Theorem selection_starts_analysis (w : World) (selectedStock : prop) :
  (forall ticker,
     selectedStock = Str ticker -> ticker <> "" ->
     changed w selectedStock = true ->
     let defaultDate := getDefaultDate h (dates w) in
     handle h w (Render selectedStock) =
     handle h (tick (render selectedStock w))
       (Submit {| emiten := ticker;
                  fromDate := defaultDate;
                  toDate := defaultDate |}) /\
     cleared (ui (handle h w (Render selectedStock))) /\
     dates (handle h w (Render selectedStock)) = S (dates w)) /\
  (selectedStock = IsNull \/ selectedStock = Absent \/
   selectedStock = Str "" \/ rendered w = Some selectedStock ->
   ui (handle h w (Render selectedStock)) = ui w /\
   tasks (handle h w (Render selectedStock)) = tasks w /\
   dates (handle h w (Render selectedStock)) = dates w).
Proof.
  split.
  - intros ticker -> Hticker Hchanged defaultDate. simpl. rewrite Hchanged.
    unfold effect. simpl.
    destruct (String.eqb_spec ticker ""); [contradiction|].
    repeat split.
  - intros Hnothing. simpl.
    destruct (changed w selectedStock) eqn:Hchanged; [|now repeat split].
    assert (Hfalsy : truthy selectedStock = None).
    { destruct Hnothing as [->|[->|[->|Hsame]]]; try reflexivity.
      unfold changed in Hchanged. rewrite Hsame, Object_is_same in Hchanged.
      discriminate Hchanged. }
    unfold effect. rewrite Hfalsy. now repeat split.
Qed.

(** **** [handleCopy] *)

(** C9: wherever the component has got to, [handleCopy] writes to the
    clipboard only when a result is stored, and then the serialized result;
    issuing the write changes no state; a write that fails is logged with
    [console.error] and nothing else: the loading flag, the result, the
    error and the copied flag are as before, and no rejection is left
    unhandled. *)
Theorem copy_failure_swallowed (w : World) :
  reachable h w ->
  let w1 := handle h w Copy in
  ui w1 = ui w /\
  (forall data k,
     tasks w1 !! fresh w = Some (OnWriteText data k) ->
     ToBoolean (result (ui w)) = true /\
     serialize h (result (ui w)) = inr data) /\
  (ToBoolean (result (ui w)) = false ->
   tasks w1 = tasks w /\ console w1 = console w) /\
  (forall e,
     let w2 := handle h w1 (WriteTextSettled (fresh w) (Rejected e)) in
     ui w2 = ui w /\
     unhandled w2 = unhandled w /\
     tasks w2 !! fresh w = None /\
     (is_Some (tasks w1 !! fresh w) ->
      console w2 = (console w ++ [("Failed to copy:", e)])%list)).
Proof.
  intros Hreach w1. subst w1.
  assert (Hfree : tasks w !! fresh w = None).
  { destruct (tasks w !! fresh w) as [t|] eqn:Ht; [|reflexivity].
    destruct (reachable_well_formed w Hreach _ _ Ht). lia. }
  change (handle h w Copy)
    with (call h (handleCopy h (result (ui w))) w).
  rewrite handleCopy_cases.
  destruct (ToBoolean (result (ui w))) eqn:Hresult; cbn -[written].
  - destruct (serialize h (result (ui w))) as [err|data] eqn:Hdata;
      cbn -[written].
    + rewrite Hfree. repeat split; try discriminate; auto.
      intros [t Ht]. discriminate Ht.
    + rewrite lookup_insert_eq.
      split; [reflexivity|]. split; [now intros data' k [= <- <-]|].
      split; [discriminate|].
      intros e. rewrite written_cases. cbn.
      repeat split; auto. apply lookup_delete_eq.
  - rewrite Hfree. repeat split; try discriminate; auto.
    intros [t Ht]. discriminate Ht.
Qed.

(** **** Two calls at once *)

Lemma handle_all_app (w : World) (es es' : list event) :
  handle_all h w (es ++ es') =
  handle_all h (handle_all h w es) es'.
Proof. apply foldl_app. Qed.

Lemma conclude_same_kind (c c' : completion value) (st : State) :
  kind c = kind c' ->
  shown (conclude c (conclude c' (begin st))) = shown (conclude c (begin st)).
Proof. destruct c, c'; simpl; intros H; try discriminate H; reflexivity. Qed.

End Invariant.

(** C7, counterexample: BBCA is submitted, then BBRI; the response for
    BBCA arrives while the request for BBRI is in flight, and its result is
    shown. *)
Lemma stale_result_beside_new_request :
  let es := ([Submit (query "BBCA"); Submit (query "BBRI")] ++
             delivery 0 (succeeded (of_StockAnalysisResult bbca)))%list in
  (exists t, tasks (handle_all enUS boot es) !! 1%nat = Some t /\
             is_request t = true) /\
  result (ui (handle_all enUS boot es)) = of_StockAnalysisResult bbca /\
  ~ never_stale enUS.
Proof.
  intros es.
  assert (Hpending :
    tasks (handle_all enUS boot es) !! 1%nat =
    Some (OnFetch (request_of (query "BBRI")) (fetched enUS))) by reflexivity.
  assert (Hresult :
    result (ui (handle_all enUS boot es)) = of_StockAnalysisResult bbca)
    by (vm_compute; reflexivity).
  split; [eauto|]. split; [exact Hresult|].
  intros Hnever. destruct (Hnever es 1%nat _ Hpending eq_refl) as [Hnull _].
  rewrite Hresult in Hnull. discriminate Hnull.
Qed.

(** C8, counterexample: the empty string is not [null] and differs from
    what was rendered before, and no request is made. *)
Lemma empty_ticker_triggers_nothing :
  changed boot (Str "") = true /\
  tasks (handle enUS boot (Render (Str ""))) = ∅ /\
  ~ every_new_ticker_submits enUS.
Proof.
  split; [reflexivity|]. split; [reflexivity|].
  intros Hevery. destruct (Hevery boot "" eq_refl) as [k Hk].
  simpl in Hk. rewrite lookup_empty in Hk. discriminate Hk.
Qed.

Lemma selection_starts_analysis_witness :
  cleared (ui (handle enUS boot (Render (Str "BBCA")))) /\
  tasks (handle enUS boot (Render IsNull)) = ∅.
Proof.
  split.
  - refine (proj1 (proj2 (proj1 (selection_starts_analysis enUS boot (Str "BBCA"))
                            "BBCA" eq_refl _ eq_refl))).
    discriminate.
  - exact (proj1 (proj2 (proj2 (selection_starts_analysis enUS boot IsNull)
                           (or_introl eq_refl)))).
Defined.

End OrchestratorFacts.

(** ** The copied text: read back, and at the edges *)

Module ReportFacts.
Import Digits Number JS Serializer Lines.

Lemma split_single (c : ascii) (s : string) :
  contains c s = false -> split c s = [s].
Proof.
  induction s as [|c' s IH]; simpl; [reflexivity|].
  intros H. apply orb_false_elim in H as [Hc Hs].
  rewrite Hc, (IH Hs). reflexivity.
Qed.

Lemma split_append (c : ascii) (s rest : string) :
  contains c s = false ->
  split c (s +:+ String c rest) = s :: split c rest.
Proof.
  induction s as [|c' s IH]; simpl; intros H.
  - now rewrite Ascii.eqb_refl.
  - apply orb_false_elim in H as [Hc Hs].
    rewrite Hc, (IH Hs). reflexivity.
Qed.

(** Joining lines that hold no separator and splitting the text again
    gives the lines back. *)
Lemma split_concat (c : ascii) (ls : list string) :
  ls <> [] ->
  forallb (fun l => negb (contains c l)) ls = true ->
  split c (String.concat (String c "") ls) = ls.
Proof.
  induction ls as [|l ls IH]; [congruence|].
  intros _ H. simpl in H. apply andb_prop in H as [Hl Hls].
  apply negb_true_iff in Hl.
  destruct ls as [|l' ls].
  - simpl. now apply split_single.
  - change (String.concat (String c "") (l :: l' :: ls))
      with (l +:+ String c "" +:+ String.concat (String c "") (l' :: ls)).
    change (String c "" +:+ String.concat (String c "") (l' :: ls))
      with (String c (String.concat (String c "") (l' :: ls))).
    rewrite split_append by exact Hl.
    rewrite IH; [reflexivity | congruence | exact Hls].
Qed.

(** X1: the text that [formatResultForCopy] returns, split at its line
    feeds, is the array of lines it was joined from, and that array has 25
    entries, whenever no line holds a line feed of its own (a ticker, a
    date or a broker code with a line feed in it makes the text longer
    than 25 lines). *)
Theorem report_splits_into_lines (h : Host) (r : StockAnalysisResult) :
  single_lines (lines h r) = true ->
  split newline (formatResultForCopy h r) = lines h r /\
  List.length (lines h r) = 25%nat.
Proof.
  intros Hsingle. split.
  - unfold formatResultForCopy, LF. apply split_concat; [|exact Hsingle].
    now destruct r.
  - now destruct r.
Qed.

(** X1 at the sample result. *)
Lemma report_splits_into_lines_witness :
  split newline (formatResultForCopy enUS bbca) = lines enUS bbca.
Proof.
  refine (proj1 (report_splits_into_lines enUS bbca _)).
  vm_compute. reflexivity.
Defined.

Lemma of_Z_100 : of_Z 100 = S754_finite false 7036874417766400 (-46).
Proof. vm_compute. reflexivity. Qed.

Lemma sub_same (s : bool) (m : positive) (e : Z) :
  sub (S754_finite s m e) (S754_finite s m e) = S754_zero false.
Proof.
  unfold sub, SFsub. rewrite Z.sub_diag. reflexivity.
Qed.

(** X2: for every finite price other than 0, of either sign, the gain of
    a target equal to the price is rendered "0.00", never "-0.00" or
    "NaN"; the line of such a minimum target ends in " (+0.00%)". *)
Theorem gain_at_the_price
    (h : Host) (r : StockAnalysisResult) (s : bool) (m : positive) (e : Z) :
  harga (marketData r) = Num (S754_finite s m e) ->
  calculateGain (marketData r) (Num (S754_finite s m e)) = "0.00" /\
  (targetRealistis1 (calculated r) = Num (S754_finite s m e) ->
   line h 23 r =
   "Target Min: " +:+ Number.toString (S754_finite s m e) +:+ " (+0.00%)").
Proof.
  intros Hharga.
  assert (Hgain : calculateGain (marketData r) (Num (S754_finite s m e)) = "0.00").
  { unfold calculateGain, gain. rewrite Hharga. simpl ToNumber.
    rewrite sub_same, of_Z_100. destruct s; reflexivity. }
  split; [exact Hgain|].
  intros Htarget. destruct r as [i sb md c]. unfold line. simpl in *.
  rewrite Htarget. simpl template. now rewrite Hgain.
Qed.

(** X2 at a price of 9000. *)
Lemma gain_at_the_price_witness :
  calculateGain
    {| harga := price 9000; offerTeratas := Null; bidTerbawah := Null;
       fraksi := Null; totalBid := Null; totalOffer := Null |}
    (price 9000) = "0.00".
Proof.
  exact (proj1 (gain_at_the_price enUS
    {| input := input bbca; stockbitData := stockbitData bbca;
       marketData := {| harga := price 9000; offerTeratas := Null;
                        bidTerbawah := Null; fraksi := Null;
                        totalBid := Null; totalOffer := Null |};
       calculated := calculated bbca |}
    false 4947802324992000%positive (-39) eq_refl)).
Defined.



(** X4: when the price or the target is undefined, the gain is rendered
    "NaN", whatever the other one is. *)
Theorem gain_of_undefined (md : MarketData) (target : field) :
  harga md = Undefined \/ target = Undefined ->
  calculateGain md target = "NaN".
Proof.
  intros H. unfold calculateGain, gain.
  destruct H as [-> | ->]; simpl ToNumber.
  - now destruct (ToNumber target).
  - now destruct (ToNumber (harga md)).
Qed.

(** X4 at an undefined target. *)
Lemma gain_of_undefined_witness :
  calculateGain (marketData bbca) Undefined = "NaN".
Proof. exact (gain_of_undefined (marketData bbca) Undefined (or_intror eq_refl)). Defined.

(** X5: the four fields that do not reach [formatNumber] as stored never
    get its placeholder: a null volume is divided by 100 to 0 and an
    undefined one to NaN before [formatNumber] sees it, so the line shows
    what [toLocaleString] gives for 0 or NaN; a null or undefined target
    is substituted by the template literal as the word "null" or
    "undefined", the gain of an undefined target being "NaN". *)
Theorem missing_outside_formatNumber (h : Host) (r : StockAnalysisResult) :
  (totalBid (marketData r) = Null ->
   line h 13 r = "Total Bid: " +:+ toLocaleString h (S754_zero false)) /\
  (totalBid (marketData r) = Undefined ->
   line h 13 r = "Total Bid: " +:+ toLocaleString h NaN) /\
  (totalOffer (marketData r) = Null ->
   line h 14 r = "Total Offer: " +:+ toLocaleString h (S754_zero false)) /\
  (totalOffer (marketData r) = Undefined ->
   line h 14 r = "Total Offer: " +:+ toLocaleString h NaN) /\
  (targetRealistis1 (calculated r) = Null ->
   line h 23 r =
   "Target Min: null (+" +:+ calculateGain (marketData r) Null +:+ "%)") /\
  (targetMax (calculated r) = Null ->
   line h 24 r =
   "Target Max: null (+" +:+ calculateGain (marketData r) Null +:+ "%)") /\
  (targetRealistis1 (calculated r) = Undefined ->
   line h 23 r = "Target Min: undefined (+NaN%)") /\
  (targetMax (calculated r) = Undefined ->
   line h 24 r = "Target Max: undefined (+NaN%)").
Proof.
  destruct r as [i sb [hg ot bt fr tb to] [tp rr ca cp t1 t2]].
  unfold line. simpl.
  repeat split; intros ->; reflexivity.
Qed.

(** X5 at a result with an undefined bid volume and a null offer volume. *)
Lemma missing_outside_formatNumber_witness :
  line enUS 13 bbca_missing = "Total Bid: NaN" /\
  line enUS 14 bbca_missing = "Total Offer: 0".
Proof.
  pose proof (missing_outside_formatNumber enUS bbca_missing) as H.
  split.
  - exact (proj1 (proj2 H) eq_refl).
  - exact (proj1 (proj2 (proj2 H)) eq_refl).
Defined.

End ReportFacts.

(** ** The life of a request and of a copy *)

Module LifecycleFacts.
Import JS Serializer Orchestrator Lifecycle OrchestratorFacts.

Section WithHost.
Variable h : Host.

Lemma handle_Copy (w : World) :
  handle h w Copy =
  if ToBoolean (result (ui w)) then
    match serialize h (result (ui w)) with
    | inl err => log "Failed to copy:" err (allocate w)
    | inr data => suspend (fresh w) (OnWriteText data (written h)) (allocate w)
    end
  else allocate w.
Proof.
  change (handle h w Copy) with (call h (handleCopy h (result (ui w))) w).
  rewrite handleCopy_cases.
  destruct (ToBoolean (result (ui w))); [|reflexivity].
  destruct (serialize h (result (ui w))); reflexivity.
Qed.

Lemma handle_WriteTextSettled (w : World) (id : nat) (data : string) (o : settled unit) :
  tasks w !! id = Some (OnWriteText data (written h)) ->
  handle h w (WriteTextSettled id o) =
  match o with
  | Fulfilled _ =>
      allocate (suspend (fresh w) (OnTimeout (set_copied false) 2000)
                  (with_ui (set_copied true) (resume id w)))
  | Rejected e => log "Failed to copy:" e (resume id w)
  end.
Proof.
  intros Hid. cbn -[written]. rewrite Hid, written_cases.
  destruct o as [[]|e]; reflexivity.
Qed.

Lemma handle_Render (w : World) (selectedStock : prop) :
  handle h w (Render selectedStock) =
  if changed w selectedStock then
    match truthy selectedStock with
    | Some ticker =>
        suspend (fresh w)
          (OnFetch (request_of {| emiten := ticker;
                                  fromDate := getDefaultDate h (dates w);
                                  toDate := getDefaultDate h (dates w) |})
             (fetched h))
          (with_ui begin (tick (allocate (render selectedStock w))))
    | None => allocate (render selectedStock w)
    end
  else render selectedStock w.
Proof.
  cbn -[fetched]. destruct (changed w selectedStock); [|reflexivity].
  unfold effect. destruct (truthy selectedStock); reflexivity.
Qed.

Lemma handle_FetchSettled (w : World) (id : nat) (request : Request) (o : settled Response) :
  tasks w !! id = Some (OnFetch request (fetched h)) ->
  handle h w (FetchSettled id o) =
  match o with
  | Fulfilled response => suspend id (OnJson response (parsed h)) (resume id w)
  | Rejected e => with_ui (conclude (inl e)) (resume id w)
  end.
Proof.
  intros Hid. cbn -[fetched parsed]. rewrite Hid.
  destruct o; [now rewrite fetched_Fulfilled | apply fetched_Rejected].
Qed.

Lemma handle_JsonSettled (w : World) (id : nat) (response : Response) (o : settled value) :
  tasks w !! id = Some (OnJson response (parsed h)) ->
  handle h w (JsonSettled id o) =
  with_ui (conclude (verdict h (Answered response o))) (resume id w).
Proof.
  intros Hid. cbn -[parsed]. rewrite Hid.
  apply (parsed_settled h response o id).
Qed.

Lemma not_fresh (w : World) (id : nat) (t : task) :
  well_formed h w -> tasks w !! id = Some t -> id <> fresh w.
Proof. intros Hw Ht. destruct (Hw id t Ht). lia. Qed.

Lemma stays_put (w : World) (e : event) (w' : World) :
  starts w e = false -> ui w' = ui w -> tasks w' = tasks w ->
  transition h w e w'.
Proof.
  intros Hstarts Hui Htasks.
  apply stays; [exact Hstarts | now rewrite Hui | auto |].
  intros id t _. now rewrite Htasks.
Qed.

(** Every event does one of four things. *)
Lemma handle_transition (w : World) (e : event) :
  well_formed h w -> transition h w e (handle h w e).
Proof.
  intros Hw. destruct e as [data|selectedStock| |id o|id o|id o|id].
  - (* Submit *)
    rewrite handle_Submit. apply (begins h w _ _ data); [reflexivity..|].
    intros id t Ht. simpl. rewrite lookup_insert. case_decide as Hid.
    + subst id. split.
      * intros [= <-]. now left.
      * intros [[_ ->]|Hold]; [reflexivity|].
        now destruct (not_fresh w _ _ Hw Hold).
    + split; [now right|]. intros [[-> _]|Hold]; [contradiction | exact Hold].
  - (* Render *)
    rewrite handle_Render.
    destruct (changed w selectedStock) eqn:Hchanged;
      [|apply stays_put; [simpl; now rewrite Hchanged | reflexivity..]].
    destruct (truthy selectedStock) as [ticker|] eqn:Hticker;
      [|apply stays_put; [simpl; now rewrite Hchanged, Hticker | reflexivity..]].
    apply (begins h w _ _
             {| emiten := ticker; fromDate := getDefaultDate h (dates w);
                toDate := getDefaultDate h (dates w) |});
      [simpl; now rewrite Hchanged, Hticker | reflexivity | reflexivity |].
    intros id t Ht. simpl. rewrite lookup_insert. case_decide as Hid.
    + subst id. split.
      * intros [= <-]. now left.
      * intros [[_ ->]|Hold]; [reflexivity|].
        now destruct (not_fresh w _ _ Hw Hold).
    + split; [now right|]. intros [[-> _]|Hold]; [contradiction | exact Hold].
  - (* Copy *)
    rewrite handle_Copy.
    destruct (ToBoolean (result (ui w))); [|now apply stays_put].
    destruct (serialize h (result (ui w))) as [err|data]; [now apply stays_put|].
    apply stays; [reflexivity | reflexivity | discriminate |].
    intros id t Ht. simpl. rewrite lookup_insert. case_decide as Hid; [|reflexivity].
    subst id. split.
    + intros [= <-]. discriminate Ht.
    + intros Hold. now destruct (not_fresh w _ _ Hw Hold).
  - (* FetchSettled *)
    destruct (tasks w !! id) as [[request k|response k|data k|callback delay]|] eqn:Hid;
      try (simpl; rewrite Hid; now apply stays_put).
    destruct (Hw id _ Hid) as [_ Hk]. simpl in Hk. subst k.
    rewrite (handle_FetchSettled w id request o Hid).
    destruct o as [response|e].
    + apply (proceeds h w _ _ id request response);
        [reflexivity | reflexivity | exact Hid | reflexivity |].
      intros id' t Ht. simpl. rewrite lookup_insert. case_decide as Hid'.
      * subst id'. split.
        -- intros [= <-]. now left.
        -- intros [[_ ->]|[Hne _]]; [reflexivity | contradiction].
      * rewrite lookup_delete_ne by auto. split.
        -- intros Hold. right. split; [auto | exact Hold].
        -- intros [[-> _]|[_ Hold]]; [contradiction | exact Hold].
    + apply (concludes h w _ _ id (OnFetch request (fetched h)) (inl e));
        [reflexivity | reflexivity | exact Hid | reflexivity | reflexivity |].
      intros id' t' Ht'. simpl. rewrite lookup_delete. case_decide as Hid'.
      * subst id'. split; [discriminate | now intros [Hne _]].
      * split; [intros Hold; split; [auto | exact Hold] | now intros [_ Hold]].
  - (* JsonSettled *)
    destruct (tasks w !! id) as [[request k|response k|data k|callback delay]|] eqn:Hid;
      try (simpl; rewrite Hid; now apply stays_put).
    destruct (Hw id _ Hid) as [_ Hk]. simpl in Hk. subst k.
    rewrite (handle_JsonSettled w id response o Hid).
    apply (concludes h w _ _ id (OnJson response (parsed h))
             (verdict h (Answered response o)));
      [reflexivity | reflexivity | exact Hid | reflexivity | reflexivity |].
    intros id' t' Ht'. simpl. rewrite lookup_delete. case_decide as Hid'.
    + subst id'. split; [discriminate | now intros [Hne _]].
    + split; [intros Hold; split; [auto | exact Hold] | now intros [_ Hold]].
  - (* WriteTextSettled *)
    destruct (tasks w !! id) as [[request k|response k|data k|callback delay]|] eqn:Hid;
      try (simpl; rewrite Hid; now apply stays_put).
    destruct (Hw id _ Hid) as [_ Hk]. simpl in Hk. subst k.
    rewrite (handle_WriteTextSettled w id data o Hid).
    destruct o as [[]|e]; (apply stays; [reflexivity | reflexivity | discriminate |]).
    + intros id' t Ht. simpl. rewrite lookup_insert. case_decide as Hfresh.
      * subst id'. split.
        -- intros [= <-]. discriminate Ht.
        -- intros Hold. now destruct (not_fresh w _ _ Hw Hold).
      * rewrite lookup_delete. case_decide as Hid'; [|reflexivity].
        subst id'. split; [discriminate|].
        intros Hold. rewrite Hid in Hold. injection Hold as <-. discriminate Ht.
    + intros id' t Ht. simpl. rewrite lookup_delete. case_decide as Hid'; [|reflexivity].
      subst id'. split; [discriminate|].
      intros Hold. rewrite Hid in Hold. injection Hold as <-. discriminate Ht.
  - (* TimeoutFired *)
    destruct (tasks w !! id) as [[request k|response k|data k|callback delay]|] eqn:Hid;
      try (simpl; rewrite Hid; now apply stays_put).
    destruct (Hw id _ Hid) as [_ [-> _]].
    simpl. rewrite Hid.
    apply stays; [reflexivity | reflexivity | discriminate |].
    intros id' t Ht. simpl. rewrite lookup_delete. case_decide as Hid'; [|reflexivity].
    subst id'. split; [discriminate|].
    intros Hold. rewrite Hid in Hold. injection Hold as <-. discriminate Ht.
Qed.

(** **** What the spinner tells *)

Lemma spinner_step (w : World) (e : event) (w' : World) :
  transition h w e w' ->
  (loading (ui w) = true -> cleared (ui w) /\ in_flight w) ->
  loading (ui w') = true -> cleared (ui w') /\ in_flight w'.
Proof.
  intros [Hstarts Hshown Hui Htasks
         |data Hstarts Hcopy Hui Htasks
         |id request response Hstarts Hcopy Hid Hui Htasks
         |id t c Hstarts Hcopy Hid Ht Hui Htasks] IH Hloading.
  - injection Hshown as Hl Hr He. rewrite Hl in Hloading.
    destruct (IH Hloading) as [(_ & Hr' & He') (id & t & Hid & Ht)].
    split; [repeat split; congruence|].
    exists id, t. split; [now apply Htasks | exact Ht].
  - rewrite Hui. split; [repeat split|].
    exists (fresh w), (OnFetch (request_of data) (fetched h)).
    split; [apply Htasks; [reflexivity | now left] | reflexivity].
  - rewrite Hui in *. destruct (IH Hloading) as [Hclear _].
    split; [exact Hclear|].
    exists id, (OnJson response (parsed h)).
    split; [apply Htasks; [reflexivity | now left] | reflexivity].
  - rewrite Hui in Hloading. discriminate Hloading.
Qed.

Lemma spinner_invariant (w : World) :
  reachable h w -> loading (ui w) = true -> cleared (ui w) /\ in_flight w.
Proof.
  induction 1 as [|w e Hreach IH]; [discriminate|].
  apply (spinner_step w e); [|exact IH].
  apply handle_transition. now apply reachable_well_formed.
Qed.

Lemma starts_not_of_copy (w : World) (e : event) :
  starts w e = true -> of_copy e = false.
Proof. now destruct e. Qed.

(** X6: in every reachable world, an event of the copy button (the click,
    the clipboard's answer, the timer) changes neither [loading] nor
    [result] nor [error], and every other event (a submit, a render, an
    answer of the network) leaves [copied] as it was: a new analysis does
    not reset the "Copied!" feedback of the previous one. *)
Theorem copy_and_request_apart (w : World) (e : event) :
  reachable h w ->
  (of_copy e = true -> shown (ui (handle h w e)) = shown (ui w)) /\
  (of_copy e = false -> copied (ui (handle h w e)) = copied (ui w)).
Proof.
  intros Hreach.
  destruct (handle_transition w e (reachable_well_formed h w Hreach))
    as [Hstarts Hshown Hui Htasks
       |data Hstarts Hcopy Hui Htasks
       |id request response Hstarts Hcopy Hid Hui Htasks
       |id t c Hstarts Hcopy Hid Ht Hui Htasks].
  - split; [auto|]. intros Hno. now rewrite (Hui Hno).
  - rewrite Hui. split; [congruence | reflexivity].
  - rewrite Hui. split; reflexivity.
  - rewrite Hui. split; [congruence | now destruct c].
Qed.

(** **** One call at a time *)

Lemma one_at_a_time_reachable (w : World) :
  one_at_a_time h w -> reachable h w.
Proof. induction 1; now constructor. Qed.

Lemma one_at_a_time_step (w : World) (e : event) (w' : World) :
  transition h w e w' -> (starts w e = true -> idle w) ->
  (result (ui w) = VNull \/ error (ui w) = None) /\
  (in_flight w -> cleared (ui w)) /\ at_most_one w ->
  (result (ui w') = VNull \/ error (ui w') = None) /\
  (in_flight w' -> cleared (ui w')) /\ at_most_one w'.
Proof.
  intros [Hstarts Hshown Hui Htasks
         |data Hstarts Hcopy Hui Htasks
         |id request response Hstarts Hcopy Hid Hui Htasks
         |id t c Hstarts Hcopy Hid Ht Hui Htasks] Hidle (Hone & Hflight & Hmost).
  - injection Hshown as Hl Hr He. split; [|split].
    + rewrite Hr, He. exact Hone.
    + intros (id & t & Hid & Ht). apply Htasks in Hid; [|exact Ht].
      destruct Hflight as (Hl' & Hr' & He'); [now exists id, t|].
      repeat split; congruence.
    + intros id id' t t' Hid Ht Hid' Ht'.
      apply Htasks in Hid; [|exact Ht]. apply Htasks in Hid'; [|exact Ht'].
      now apply (Hmost id id' t t').
  - specialize (Hidle Hstarts). rewrite Hui. split; [now left|]. split; [now repeat split|].
    intros id id' t t' Hid Ht Hid' Ht'.
    apply Htasks in Hid; [|exact Ht]. apply Htasks in Hid'; [|exact Ht'].
    destruct Hid as [[-> _]|Hold]; [|now rewrite (Hidle _ _ Hold) in Ht].
    destruct Hid' as [[-> _]|Hold]; [reflexivity|now rewrite (Hidle _ _ Hold) in Ht'].
  - rewrite Hui. split; [exact Hone|]. split.
    + intros _. apply Hflight. now exists id, (OnFetch request (fetched h)).
    + assert (Honly : forall id' t, tasks w' !! id' = Some t ->
                                    is_request t = true -> id' = id).
      { intros id' t Hid' Ht. apply Htasks in Hid'; [|exact Ht].
        destruct Hid' as [[-> _]|[_ Hold]]; [reflexivity|].
        now apply (Hmost id' id t (OnFetch request (fetched h))). }
      intros id1 id2 t1 t2 H1 Ht1 H2 Ht2.
      rewrite (Honly _ _ H1 Ht1), (Honly _ _ H2 Ht2). reflexivity.
  - destruct Hflight as (_ & Hr & He); [now exists id, t|].
    assert (Hidle' : forall id' t', tasks w' !! id' = Some t' ->
                                    is_request t' = true -> False).
    { intros id' t' Hid' Ht'. apply Htasks in Hid' as [Hne Hold]; [|exact Ht'].
      apply Hne. now apply (Hmost id' id t' t). }
    rewrite Hui. split; [|split].
    + destruct c; simpl; [now left | now right].
    + intros (id' & t' & Hid' & Ht'). now destruct (Hidle' _ _ Hid' Ht').
    + intros id1 id2 t1 t2 H1 Ht1. now destruct (Hidle' _ _ H1 Ht1).
Qed.

Lemma one_at_a_time_invariant (w : World) :
  one_at_a_time h w ->
  (result (ui w) = VNull \/ error (ui w) = None) /\
  (in_flight w -> cleared (ui w)) /\ at_most_one w.
Proof.
  induction 1 as [|w e Hone IH Hidle].
  - split; [now left|]. split.
    + intros (id & t & Hid & _). simpl in Hid. now rewrite lookup_empty in Hid.
    + intros id id' t t' Hid. simpl in Hid. now rewrite lookup_empty in Hid.
  - apply (one_at_a_time_step w e); [|exact Hidle|exact IH].
    apply handle_transition.
    apply reachable_well_formed. now apply one_at_a_time_reachable.
Qed.

(** X7: as long as [handleSubmit] is only called while no request is in
    flight, the component never holds a result and an error together, and
    [loading] is true exactly while a request is in flight. *)
Theorem result_or_error_not_both (w : World) :
  one_at_a_time h w ->
  (result (ui w) = VNull \/ error (ui w) = None) /\
  (loading (ui w) = true <-> in_flight w).
Proof.
  intros Hone. destruct (one_at_a_time_invariant w Hone) as (Hone' & Hflight & _).
  split; [exact Hone'|]. split.
  - intros Hloading.
    now destruct (spinner_invariant w (one_at_a_time_reachable w Hone) Hloading).
  - intros Hin. now destruct (Hflight Hin).
Qed.

(** **** The payload *)

(** X8: a body that parses to something other than an object never gives
    a result: for null the read of [json.success] throws and the message
    of the engine's [TypeError] is shown; for a boolean, a number, a
    string or an array, [json.success] and [json.error] are undefined and
    the fallback "Failed to analyze stock" is shown. In both cases
    [loading] ends false and [copied] is untouched. *)
Theorem body_not_an_object
    (w : World) (data : StockInput) (response : Response) (json : value) :
  (forall props, json <> VObj props) ->
  ui (submit h w data (Answered response (Fulfilled json))) =
  {| loading := false; result := VNull;
     error := Some (match json with
                    | VUndefined | VNull => cannot_read h json "success"
                    | _ => "Failed to analyze stock"
                    end);
     copied := copied (ui w) |}.
Proof.
  intros Hjson. rewrite submit_concludes.
  destruct json; try reflexivity. now destruct (Hjson props).
Qed.


(** X10: a truthy [json.error] that is no string is converted by
    [new Error]: the message shown is its [ToString] (an object gives
    "[object Object]", a number its digits), or the message of the
    [TypeError] when the conversion itself throws. *)
Theorem error_is_converted
    (w : World) (data : StockInput) (response : Response)
    (json success err : value) :
  Get h json "success" = inr success -> ToBoolean success = false ->
  Get h json "error" = inr err -> ToBoolean err = true ->
  error (ui (submit h w data (Answered response (Fulfilled json)))) =
  Some (match ToString h err with
        | inr message => message
        | inl thrown => message_of thrown
        end).
Proof.
  intros Hsuccess Hfalsy Herr Htruthy. rewrite submit_concludes.
  unfold verdict. rewrite Hsuccess, Hfalsy, Herr.
  unfold logical_or. rewrite Htruthy. unfold new_Error.
  destruct err; try discriminate Htruthy;
    destruct (ToString h _); reflexivity.
Qed.


(** **** The copy button *)

Lemma as_field_of_field (f : field) : as_field (of_field f) = Some f.
Proof. now destruct f. Qed.

(** Reading the JSON object of a result at its type gives the result. *)
Lemma as_of_StockAnalysisResult (r : StockAnalysisResult) :
  as_StockAnalysisResult (of_StockAnalysisResult r) = Some r.
Proof.
  destruct r as [[em fd td] [b bb rb] [hg ot bt fr tb to] [tp rr ca cp t1 t2]].
  unfold as_StockAnalysisResult, as_StockInput, as_StockbitData,
    as_MarketData, as_Calculated.
  cbn -[as_field of_field]. rewrite !as_field_of_field. reflexivity.
Qed.

Lemma absent_before (w : World) (id : nat) :
  well_formed h w -> (fresh w <= id)%nat -> tasks w !! id = None.
Proof.
  intros Hw Hid. destruct (tasks w !! id) as [t|] eqn:Ht; [|reflexivity].
  destruct (Hw id t Ht). lia.
Qed.

(** X12: with a stored result that serializes to [data], a click on the
    copy button asks the clipboard to write [data] and changes no state;
    when the write succeeds [copied] becomes true, nothing else changes,
    and a timer of 2000 ms is set; when it fires [copied] is false again
    and the pending work is what it was before the click. *)
Theorem copy_feedback (w : World) (data : string) :
  reachable h w ->
  ToBoolean (result (ui w)) = true ->
  serialize h (result (ui w)) = inr data ->
  let w1 := handle h w Copy in
  let w2 := handle h w1 (WriteTextSettled (fresh w) (Fulfilled ())) in
  let w3 := handle h w2 (TimeoutFired (S (fresh w))) in
  tasks w1 !! fresh w = Some (OnWriteText data (written h)) /\
  ui w1 = ui w /\
  ui w2 = set_copied true (ui w) /\
  tasks w2 !! S (fresh w) = Some (OnTimeout (set_copied false) 2000) /\
  ui w3 = set_copied false (ui w) /\
  tasks w3 = tasks w.
Proof.
  intros Hreach Htruthy Hdata w1 w2 w3.
  pose proof (reachable_well_formed h w Hreach) as Hw.
  assert (H1 : w1 = suspend (fresh w) (OnWriteText data (written h)) (allocate w)).
  { subst w1. now rewrite handle_Copy, Htruthy, Hdata. }
  assert (H2 : w2 = allocate (suspend (S (fresh w)) (OnTimeout (set_copied false) 2000)
                                (with_ui (set_copied true) (resume (fresh w) w1)))).
  { subst w2. rewrite (handle_WriteTextSettled w1 (fresh w) data).
    - now rewrite H1.
    - rewrite H1. simpl. apply lookup_insert_eq. }
  assert (H3 : w3 = with_ui (set_copied false) (resume (S (fresh w)) w2)).
  { subst w3. simpl. rewrite H2. simpl. now rewrite lookup_insert_eq. }
  split; [rewrite H1; simpl; apply lookup_insert_eq|].
  split; [now rewrite H1|].
  split; [now rewrite H2, H1|].
  split; [rewrite H2; simpl; apply lookup_insert_eq|].
  split; [now rewrite H3, H2, H1|].
  rewrite H3, H2, H1. simpl.
  rewrite delete_insert_eq, delete_insert_eq.
  rewrite (delete_id _ (fresh w)) by (apply absent_before; [exact Hw | lia]).
  apply delete_id. apply absent_before; [exact Hw | lia].
Qed.

(** X13: timers are never cancelled: after two successful copies the
    timer of the first, when it fires, sets [copied] to false while the
    timer of the second is still pending, so the feedback of the second
    copy lasts less than its 2000 ms. *)
Theorem second_copy_cut_short (w : World) (data : string) :
  reachable h w ->
  ToBoolean (result (ui w)) = true ->
  serialize h (result (ui w)) = inr data ->
  let w4 :=
    handle_all h w
      [Copy; WriteTextSettled (fresh w) (Fulfilled ());
       Copy; WriteTextSettled (S (S (fresh w))) (Fulfilled ())] in
  let w5 := handle h w4 (TimeoutFired (S (fresh w))) in
  copied (ui w4) = true /\
  copied (ui w5) = false /\
  tasks w5 !! S (S (S (fresh w))) = Some (OnTimeout (set_copied false) 2000).
Proof.
  intros Hreach Htruthy Hdata w4 w5.
  set (w1 := handle h w Copy).
  set (w2 := handle h w1 (WriteTextSettled (fresh w) (Fulfilled ()))).
  assert (H1 : w1 = suspend (fresh w) (OnWriteText data (written h)) (allocate w)).
  { subst w1. now rewrite handle_Copy, Htruthy, Hdata. }
  assert (H2 : w2 = allocate (suspend (S (fresh w)) (OnTimeout (set_copied false) 2000)
                                (with_ui (set_copied true) (resume (fresh w) w1)))).
  { subst w2. rewrite (handle_WriteTextSettled w1 (fresh w) data).
    - now rewrite H1.
    - rewrite H1. simpl. apply lookup_insert_eq. }
  set (w3 := handle h w2 Copy).
  assert (H3 : w3 = suspend (S (S (fresh w))) (OnWriteText data (written h)) (allocate w2)).
  { subst w3. rewrite handle_Copy.
    replace (result (ui w2)) with (result (ui w)) by now rewrite H2, H1.
    rewrite Htruthy, Hdata. f_equal. now rewrite H2, H1. }
  assert (H4 : w4 = allocate (suspend (S (S (S (fresh w))))
                                (OnTimeout (set_copied false) 2000)
                                (with_ui (set_copied true)
                                   (resume (S (S (fresh w))) w3)))).
  { subst w4. unfold handle_all. cbn [foldl]. fold w1. fold w2. fold w3.
    rewrite (handle_WriteTextSettled w3 (S (S (fresh w))) data).
    - f_equal. f_equal. now rewrite H3, H2, H1.
    - rewrite H3. simpl. apply lookup_insert_eq. }
  assert (H5 : w5 = with_ui (set_copied false) (resume (S (fresh w)) w4)).
  { subst w5. simpl. rewrite H4, H3, H2. simpl.
    rewrite lookup_insert_ne by lia. rewrite lookup_delete_ne by lia.
    rewrite lookup_insert_ne by lia. now rewrite lookup_insert_eq. }
  split; [now rewrite H4|]. split; [now rewrite H5|].
  rewrite H5, H4. simpl. rewrite lookup_delete_ne by lia. apply lookup_insert_eq.
Qed.

(** X14: from the response to the clipboard: when the body says
    [success: true] and its [data] is the JSON object of a
    [StockAnalysisResult], that object is stored, and the next click on
    the copy button asks the clipboard to write exactly
    [formatResultForCopy] of it. *)
Theorem clipboard_gets_the_report
    (w : World) (data : StockInput) (response : Response) (json : value)
    (r : StockAnalysisResult) :
  Get h json "success" = inr (VBool true) ->
  Get h json "data" = inr (of_StockAnalysisResult r) ->
  let w1 := submit h w data (Answered response (Fulfilled json)) in
  result (ui w1) = of_StockAnalysisResult r /\
  tasks (handle h w1 Copy) !! fresh w1 =
  Some (OnWriteText (formatResultForCopy h r) (written h)).
Proof.
  intros Hsuccess Hdata w1.
  assert (Hresult : result (ui w1) = of_StockAnalysisResult r).
  { subst w1. rewrite submit_concludes. unfold verdict.
    now rewrite Hsuccess, Hdata. }
  split; [exact Hresult|].
  rewrite handle_Copy, Hresult. simpl ToBoolean. cbv iota.
  unfold serialize. rewrite as_of_StockAnalysisResult.
  simpl. apply lookup_insert_eq.
Qed.

(** **** What the component never does *)

Lemma handle_quiet (w : World) (e : event) :
  well_formed h w ->
  unhandled (handle h w e) = unhandled w /\
  (console (handle h w e) = console w \/
   of_copy e = true /\
   exists err, console (handle h w e) = (console w ++ [("Failed to copy:", err)])%list).
Proof.
  intros Hw. destruct e as [data|selectedStock| |id o|id o|id o|id].
  - rewrite handle_Submit. split; [reflexivity | now left].
  - rewrite handle_Render. destruct (changed w selectedStock);
      [destruct (truthy selectedStock)|]; (split; [reflexivity | now left]).
  - rewrite handle_Copy. destruct (ToBoolean (result (ui w)));
      [destruct (serialize h (result (ui w))) as [err|data]|];
      (split; [reflexivity|]); [right; split; [reflexivity | now exists err] | now left..].
  - destruct (tasks w !! id) as [[request k|response k|data k|callback delay]|] eqn:Hid;
      try (simpl; rewrite Hid; split; [reflexivity | now left]).
    destruct (Hw id _ Hid) as [_ Hk]. simpl in Hk. subst k.
    rewrite (handle_FetchSettled w id request o Hid).
    destruct o; (split; [reflexivity | now left]).
  - destruct (tasks w !! id) as [[request k|response k|data k|callback delay]|] eqn:Hid;
      try (simpl; rewrite Hid; split; [reflexivity | now left]).
    destruct (Hw id _ Hid) as [_ Hk]. simpl in Hk. subst k.
    rewrite (handle_JsonSettled w id response o Hid).
    split; [reflexivity | now left].
  - destruct (tasks w !! id) as [[request k|response k|data k|callback delay]|] eqn:Hid;
      try (simpl; rewrite Hid; split; [reflexivity | now left]).
    destruct (Hw id _ Hid) as [_ Hk]. simpl in Hk. subst k.
    rewrite (handle_WriteTextSettled w id data o Hid).
    destruct o as [[]|err]; (split; [reflexivity|]); [now left|].
    right. split; [reflexivity | now exists err].
  - destruct (tasks w !! id) as [[request k|response k|data k|callback delay]|] eqn:Hid;
      simpl; rewrite Hid; (split; [reflexivity | now left]).
Qed.

(** X15: in every reachable world no promise rejection has been left
    unhandled, every line written with [console.error] has the label
    "Failed to copy:", and an event that is not of the copy button writes
    nothing to the console: a failed analysis is never logged. *)
Theorem nothing_escapes (w : World) :
  reachable h w ->
  unhandled w = [] /\
  Forall (fun line => line.1 = "Failed to copy:") (console w) /\
  forall e, of_copy e = false -> console (handle h w e) = console w.
Proof.
  intros Hreach. split; [|split].
  - induction Hreach as [|w e Hreach IH]; [reflexivity|].
    destruct (handle_quiet w e (reachable_well_formed h w Hreach)) as [-> _].
    exact IH.
  - induction Hreach as [|w e Hreach IH]; [constructor|].
    destruct (handle_quiet w e (reachable_well_formed h w Hreach))
      as [_ [->|[_ [err ->]]]]; [exact IH|].
    apply Forall_app. split; [exact IH | now repeat constructor].
  - intros e Hcopy.
    destruct (handle_quiet w e (reachable_well_formed h w Hreach))
      as [_ [Hsame|[Hcopy' _]]]; [exact Hsame | congruence].
Qed.

(** **** Between a call and its outcome *)

Lemma undisturbed_step (id : nat) (w : World) (e : event) :
  well_formed h w -> cleared (ui w) -> waiting id w -> only_request id w ->
  starts w e = false -> tells id e = false ->
  cleared (ui (handle h w e)) /\
  waiting id (handle h w e) /\
  only_request id (handle h w e).
Proof.
  intros Hw Hclear (t0 & Ht0 & Hreq0) Honly Hstarts Htells.
  assert (Hfresh : (id < fresh w)%nat) by (now destruct (Hw id t0 Ht0)).
  destruct e as [data|selectedStock| |id' o|id' o|id' o|id'];
    simpl in Hstarts, Htells; try discriminate Hstarts.
  - (* Render: it triggers nothing *)
    rewrite handle_Render.
    destruct (changed w selectedStock);
      [destruct (truthy selectedStock); [discriminate Hstarts|]|];
      (split; [exact Hclear | split; [now exists t0 | exact Honly]]).
  - (* Copy: there is no result to copy *)
    rewrite handle_Copy. pose proof Hclear as (_ & -> & _). simpl.
    split; [exact Hclear | split; [now exists t0 | exact Honly]].
  - (* FetchSettled *)
    destruct (tasks w !! id') as [[request k|response k|data k|callback delay]|] eqn:Hid';
      try (simpl; rewrite Hid';
           split; [exact Hclear | split; [now exists t0 | exact Honly]]).
    assert (id' = id) as -> by (now apply (Honly id' _ Hid')).
    destruct (Hw id _ Hid') as [_ Hk]. simpl in Hk. subst k.
    rewrite (handle_FetchSettled w id request o Hid').
    destruct o as [response|e]; [|now rewrite Nat.eqb_refl in Htells].
    simpl. split; [exact Hclear | split].
    + exists (OnJson response (parsed h)). simpl. now rewrite lookup_insert_eq.
    + intros id'' t. simpl. rewrite lookup_insert.
      case_decide; [auto|]. rewrite lookup_delete_ne by auto. apply Honly.
  - (* JsonSettled *)
    destruct (tasks w !! id') as [[request k|response k|data k|callback delay]|] eqn:Hid';
      try (simpl; rewrite Hid';
           split; [exact Hclear | split; [now exists t0 | exact Honly]]).
    assert (id' = id) as -> by (now apply (Honly id' _ Hid')).
    now rewrite Nat.eqb_refl in Htells.
  - (* WriteTextSettled *)
    destruct (tasks w !! id') as [[request k|response k|data k|callback delay]|] eqn:Hid';
      try (simpl; rewrite Hid';
           split; [exact Hclear | split; [now exists t0 | exact Honly]]).
    destruct (Hw id' _ Hid') as [_ Hk]. simpl in Hk. subst k.
    assert (Hne : id' <> id) by (intros ->; rewrite Ht0 in Hid'; now inversion Hid'; subst).
    rewrite (handle_WriteTextSettled w id' data o Hid').
    destruct o as [[]|e]; simpl.
    + split; [exact Hclear | split].
      * exists t0. simpl. rewrite lookup_insert_ne by lia.
        now rewrite lookup_delete_ne.
      * intros id'' t. simpl. rewrite lookup_insert.
        case_decide; [intros [= <-]; discriminate|].
        rewrite lookup_delete. case_decide; [discriminate | apply Honly].
    + split; [exact Hclear | split].
      * exists t0. simpl. now rewrite lookup_delete_ne.
      * intros id'' t. simpl.
        rewrite lookup_delete. case_decide; [discriminate | apply Honly].
  - (* TimeoutFired *)
    destruct (tasks w !! id') as [[request k|response k|data k|callback delay]|] eqn:Hid';
      try (simpl; rewrite Hid';
           split; [exact Hclear | split; [now exists t0 | exact Honly]]).
    destruct (Hw id' _ Hid') as [_ [-> _]].
    assert (Hne : id' <> id) by (intros ->; rewrite Ht0 in Hid'; now inversion Hid'; subst).
    simpl. rewrite Hid'. split; [exact Hclear | split].
    + exists t0. simpl. now rewrite lookup_delete_ne.
    + intros id'' t. simpl.
      rewrite lookup_delete. case_decide; [discriminate | apply Honly].
Qed.

Lemma undisturbed_steps (id : nat) (es : list event) :
  forall w,
    well_formed h w -> cleared (ui w) -> waiting id w -> only_request id w ->
    undisturbed h id w es = true ->
    cleared (ui (handle_all h w es)) /\
    waiting id (handle_all h w es).
Proof.
  induction es as [|e es IH]; intros w Hw Hclear Hwait Honly Hes; [now split|].
  simpl in Hes. apply andb_prop in Hes as [He Hes].
  apply andb_prop in He as [Hstarts Htells].
  apply negb_true_iff in Hstarts, Htells.
  destruct (undisturbed_step id w e Hw Hclear Hwait Honly Hstarts Htells)
    as (Hc & Hwt & Ho).
  unfold handle_all. simpl. apply IH; auto.
  now apply handle_well_formed.
Qed.

(** A call of [handleSubmit], from the form or from the effect, clears the
    state and leaves its request in flight. *)
Lemma starts_begins (w : World) (e : event) :
  starts w e = true ->
  ui (handle h w e) = begin (ui w) /\
  fresh (handle h w e) = S (fresh w) /\
  exists data,
    tasks (handle h w e) =
    <[fresh w := OnFetch (request_of data) (fetched h)]> (tasks w).
Proof.
  intros Hstarts.
  destruct e as [data|selectedStock| |id o|id o|id o|id];
    simpl in Hstarts; try discriminate Hstarts.
  - rewrite handle_Submit. split; [reflexivity|]. split; [reflexivity|].
    now exists data.
  - rewrite handle_Render.
    destruct (changed w selectedStock); [|discriminate Hstarts].
    destruct (truthy selectedStock) as [ticker|]; [|discriminate Hstarts].
    split; [reflexivity|]. split; [reflexivity|]. eexists; reflexivity.
Qed.

(** C7, amended: every call of [handleSubmit], from the form or from the
    effect on [selectedStock], sets the loading flag and clears the result
    and the error before it awaits its request; when no other request is
    in flight, they stay so, whatever else happens (copy clicks, clipboard
    and timer callbacks, renders that trigger nothing, the response
    without its body), until a new call or until this request tells its
    outcome. *)
Theorem cleared_until_outcome :
  (forall (w : World) (e : event),
     starts w e = true ->
     cleared (ui (handle h w e)) /\
     waiting (fresh w) (handle h w e)) /\
  (forall (w : World) (e : event) (es : list event),
     reachable h w -> idle w -> starts w e = true ->
     undisturbed h (fresh w) (handle h w e) es = true ->
     cleared (ui (handle_all h (handle h w e) es)) /\
     waiting (fresh w) (handle_all h (handle h w e) es)).
Proof.
  assert (Hfirst : forall w e,
             starts w e = true ->
             cleared (ui (handle h w e)) /\
             waiting (fresh w) (handle h w e)).
  { intros w e Hstarts.
    destruct (starts_begins w e Hstarts) as (-> & _ & data & Htasks).
    split; [repeat split|].
    unfold waiting. rewrite Htasks. eexists.
    split; [apply lookup_insert_eq | reflexivity]. }
  split; [exact Hfirst|].
  intros w e es Hreach Hidle Hstarts Hes.
  destruct (Hfirst w e Hstarts) as [Hclear Hwait].
  apply undisturbed_steps; auto.
  - apply handle_well_formed. now apply reachable_well_formed.
  - destruct (starts_begins w e Hstarts) as (_ & _ & data & Htasks).
    intros id' t. rewrite Htasks, lookup_insert.
    case_decide; [auto|]. intros Ht Hreq. now rewrite (Hidle id' t Ht) in Hreq.
Qed.

(** **** Two calls at once *)

(** What a call awaits is read off its own task. *)
Lemma awaits_same (id : nat) (w w' : World) (es : list event) :
  tasks w' !! id = tasks w !! id -> awaits h id w es -> awaits h id w' es.
Proof.
  intros Hsame Hid. destruct Hid; [constructor|..].
  - eapply awaits_rejection. rewrite Hsame. eassumption.
  - eapply awaits_response. rewrite Hsame. eassumption.
  - eapply awaits_body. rewrite Hsame. eassumption.
Qed.

(** An answer for a call finds the call where it waits, moves it on, and
    leaves the other calls where they are. *)
Lemma awaits_step (id id' : nat) (w : World) (e : event) (es es' : list event) :
  id <> id' -> awaits h id w (e :: es) -> awaits h id' w es' ->
  awaits h id (handle h w e) es /\
  awaits h id' (handle h w e) es' /\
  ui (handle h w e) = told h e (ui w).
Proof.
  intros Hne Hid Hid'.
  inversion Hid as [|request err Htask|request response body Htask|response body Htask];
    subst.
  - rewrite (handle_FetchSettled w id request _ Htask).
    split; [constructor|]. split; [|reflexivity].
    apply (awaits_same id' w); [|exact Hid']. simpl. now rewrite lookup_delete_ne.
  - rewrite (handle_FetchSettled w id request _ Htask).
    split; [|split; [|reflexivity]].
    + eapply awaits_body. simpl. apply lookup_insert_eq.
    + apply (awaits_same id' w); [|exact Hid']. simpl.
      rewrite lookup_insert_ne by exact Hne. now rewrite lookup_delete_ne.
  - rewrite (handle_JsonSettled w id response _ Htask).
    split; [constructor|]. split; [|reflexivity].
    apply (awaits_same id' w); [|exact Hid']. simpl. now rewrite lookup_delete_ne.
Qed.

(** Whatever the order of the answers for two calls, each answer does to
    the state what it does alone. *)
Lemma interleaved_answers (id id' : nat) (xs ys es : list event) :
  id <> id' -> interleaved xs ys es ->
  forall w,
    awaits h id w xs -> awaits h id' w ys ->
    ui (handle_all h w es) = foldl (fun st e => told h e st) (ui w) es.
Proof.
  intros Hne. induction 1 as [|x xs ys zs _ IH|y xs ys zs _ IH];
    intros w Hxs Hys; [reflexivity|..].
  - destruct (awaits_step id id' w x xs ys Hne Hxs Hys) as (Hxs' & Hys' & Hui).
    unfold handle_all in *. cbn [foldl]. rewrite (IH _ Hxs' Hys'). now rewrite Hui.
  - destruct (awaits_step id' id w y ys xs (not_eq_sym Hne) Hys Hxs)
      as (Hys' & Hxs' & Hui).
    unfold handle_all in *. cbn [foldl]. rewrite (IH _ Hxs' Hys'). now rewrite Hui.
Qed.

(** The first call, after the answers [before], awaits the answers
    [after]. *)
Lemma first_call_awaits
    (w : World) (e_first : event) (r_first : reply) (before after : list event) :
  starts w e_first = true ->
  delivery (fresh w) r_first = (before ++ after)%list -> after <> [] ->
  let w1 := handle_all h w ([e_first] ++ before) in
  awaits h (fresh w) w1 after /\
  fresh w1 = S (fresh w) /\
  ui w1 = begin (ui w).
Proof.
  intros Hstarts Hsplit Hafter w1. subst w1.
  destruct (starts_begins w e_first Hstarts) as (Hui & Hfresh & data & Htasks).
  assert (Hfetch : tasks (handle h w e_first) !! fresh w =
                   Some (OnFetch (request_of data) (fetched h)))
    by (rewrite Htasks; apply lookup_insert_eq).
  unfold handle_all.
  destruct r_first as [e|response body]; simpl in Hsplit.
  - destruct before as [|? [|? ?]]; simpl in Hsplit;
      [|destruct after; [contradiction | discriminate Hsplit]
       |destruct after; discriminate Hsplit].
    subst after. cbn [app foldl].
    split; [|split; assumption]. now apply (awaits_rejection h _ _ (request_of data)).
  - destruct before as [|b0 [|b1 [|? ?]]]; simpl in Hsplit;
      [| |destruct after; [contradiction | discriminate Hsplit]
       |destruct after; discriminate Hsplit].
    + subst after. cbn [app foldl].
      split; [|split; assumption].
      now apply (awaits_response h _ _ (request_of data)).
    + injection Hsplit as <- <-. cbn [app foldl].
      rewrite (handle_FetchSettled _ (fresh w) (request_of data) _ Hfetch).
      split; [|split; assumption].
      eapply awaits_body. simpl. apply lookup_insert_eq.
Qed.

(** The second call is issued while the first is pending: the answers
    that follow conclude both, in the order in which they come. *)
Lemma overlap_concludes
    (w : World) (e_first e_second : event) (r_first r_second : reply)
    (before after es : list event) :
  starts w e_first = true ->
  delivery (fresh w) r_first = (before ++ after)%list -> after <> [] ->
  starts (handle_all h w ([e_first] ++ before)) e_second = true ->
  interleaved after (delivery (S (fresh w)) r_second) es ->
  let w' :=
    handle_all h w ([e_first] ++ before ++ [e_second] ++ es) in
  (last es = last after /\
   ui w' =
   conclude (verdict h r_first) (conclude (verdict h r_second) (begin (ui w)))) \/
  (last es = last (delivery (S (fresh w)) r_second) /\
   ui w' =
   conclude (verdict h r_second) (conclude (verdict h r_first) (begin (ui w)))).
Proof.
  intros Hstart1 Hsplit Hafter Hstart2 Hmerge w'.
  assert (Hne : fresh w <> S (fresh w)) by lia.
  destruct (first_call_awaits w e_first r_first before after Hstart1 Hsplit Hafter)
    as (Hfirst1 & Hfresh1 & Hui1).
  set (w1 := handle_all h w ([e_first] ++ before)) in *.
  destruct (starts_begins w1 e_second Hstart2) as (Hui0 & _ & data & Htasks0).
  set (w0 := handle h w1 e_second) in *.
  rewrite Hfresh1 in Htasks0.
  assert (Hfirst : awaits h (fresh w) w0 after).
  { apply (awaits_same _ w1); [|exact Hfirst1].
    rewrite Htasks0. now apply lookup_insert_ne. }
  assert (Hsecond : awaits h (S (fresh w)) w0 (delivery (S (fresh w)) r_second)).
  { assert (Hfetch : tasks w0 !! S (fresh w) =
                     Some (OnFetch (request_of data) (fetched h)))
      by (rewrite Htasks0; apply lookup_insert_eq).
    destruct r_second as [e|response body]; simpl.
    - now apply (awaits_rejection h _ _ (request_of data)).
    - now apply (awaits_response h _ _ (request_of data)). }
  assert (Hui : ui w0 = begin (ui w)) by (now rewrite Hui0, Hui1).
  assert (Hrun : ui w' = foldl (fun st e => told h e st) (begin (ui w)) es).
  { subst w'. rewrite <- Hui.
    replace ([e_first] ++ before ++ [e_second] ++ es)%list
      with ((([e_first] ++ before) ++ [e_second]) ++ es)%list
      by (now rewrite <- !app_assoc).
    rewrite !handle_all_app. fold w1.
    change (handle_all h w1 [e_second]) with w0.
    exact (interleaved_answers _ _ _ _ _ Hne Hmerge w0 Hfirst Hsecond). }
  rewrite Hrun.
  clear Hrun Hfirst Hsecond Hui Hui0 Htasks0 Hfirst1 Hfresh1 Hui1 Hstart2 w' w0 w1.
  destruct r_first as [e|response body]; simpl in Hsplit.
  - destruct before as [|? [|? ?]]; simpl in Hsplit;
      [|destruct after; [contradiction | discriminate Hsplit]
       |destruct after; discriminate Hsplit].
    subst after.
    destruct r_second as [e'|response' body']; simpl in Hmerge;
      repeat match goal with
             | H : interleaved _ _ _ |- _ => inversion H; subst; clear H
             end;
      simpl; auto.
  - destruct before as [|b0 [|b1 [|? ?]]]; simpl in Hsplit;
      [| |destruct after; [contradiction | discriminate Hsplit]
       |destruct after; discriminate Hsplit].
    + subst after.
      destruct r_second as [e'|response' body']; simpl in Hmerge;
        repeat match goal with
               | H : interleaved _ _ _ |- _ => inversion H; subst; clear H
               end;
        simpl; auto.
    + injection Hsplit as <- <-.
      destruct r_second as [e'|response' body']; simpl in Hmerge;
        repeat match goal with
               | H : interleaved _ _ _ |- _ => inversion H; subst; clear H
               end;
        simpl; auto.
Qed.

(** The last answers of two calls differ. *)
Lemma last_answers_apart
    (id : nat) (r_first r_second : reply) (before after : list event) :
  delivery id r_first = (before ++ after)%list -> after <> [] ->
  last after <> last (delivery (S id) r_second).
Proof.
  intros Hsplit Hafter.
  assert (Hlast : last after = last (delivery id r_first)).
  { rewrite Hsplit, last_app. destruct (last after) eqn:E; [reflexivity|].
    apply last_None in E. contradiction. }
  rewrite Hlast.
  destruct r_first, r_second; simpl; intros [= H]; lia.
Qed.

(** C10, amended: no guard discards the outcome of either of two
    overlapping calls of [handleSubmit], from the form or from the effect
    on [selectedStock], whenever the second is issued while the first
    waits (for its response or for the body) and however their answers
    are interleaved afterwards. Each response, when it resolves, writes
    its own slot (the result on success, the error on failure) and clears
    the loading flag, so what is shown in the end is the conclusion of the
    response that resolved last on top of the conclusion of the one that
    resolved first, whichever call was issued last; when both responses are
    of the same kind this is what the last resolved one shows alone. *)
Theorem overlapping_calls_both_conclude
    (w : World) (e_first e_second : event) (r_first r_second : reply)
    (before after es : list event) :
  starts w e_first = true ->
  delivery (fresh w) r_first = (before ++ after)%list -> after <> [] ->
  starts (handle_all h w ([e_first] ++ before)) e_second = true ->
  interleaved after (delivery (S (fresh w)) r_second) es ->
  let w' :=
    handle_all h w ([e_first] ++ before ++ [e_second] ++ es) in
  let alone r := conclude (verdict h r) (begin (ui w)) in
  (last es = last after \/ last es = last (delivery (S (fresh w)) r_second)) /\
  (last es = last after ->
   ui w' = conclude (verdict h r_first) (alone r_second) /\
   (kind (verdict h r_first) = kind (verdict h r_second) ->
    shown (ui w') = shown (alone r_first))) /\
  (last es = last (delivery (S (fresh w)) r_second) ->
   ui w' = conclude (verdict h r_second) (alone r_first) /\
   (kind (verdict h r_first) = kind (verdict h r_second) ->
    shown (ui w') = shown (alone r_second))) /\
  (forall data r, ui (submit h w data r) = alone r) /\
  (forall r, ui (handle_all h w (e_first :: delivery (fresh w) r)) = alone r).
Proof.
  intros Hstart1 Hsplit Hafter Hstart2 Hmerge w' alone.
  pose proof (last_answers_apart (fresh w) r_first r_second before after
                Hsplit Hafter) as Hapart.
  assert (Hsubmit : forall data r, ui (submit h w data r) = alone r).
  { intros data r. now rewrite submit_concludes. }
  assert (Halone : forall r,
             ui (handle_all h w (e_first :: delivery (fresh w) r)) = alone r).
  { intros r. destruct (starts_begins w e_first Hstart1) as (Hui & _ & data & Htasks).
    change (e_first :: delivery (fresh w) r)
      with ([e_first] ++ delivery (fresh w) r)%list.
    rewrite handle_all_app.
    rewrite (deliver h r _ (fresh w) (request_of data))
      by (unfold handle_all; cbn [foldl]; rewrite Htasks; apply lookup_insert_eq).
    unfold handle_all. cbn [foldl]. simpl. now rewrite Hui. }
  destruct (overlap_concludes w e_first e_second r_first r_second before after es
              Hstart1 Hsplit Hafter Hstart2 Hmerge) as [[Hlast Hui]|[Hlast Hui]];
    fold w' in Hui.
  - split; [now left|]. split; [|split; [|split; assumption]].
    + intros _. split; [exact Hui|].
      intros Hkind. rewrite Hui. now apply conclude_same_kind.
    + intros Hlast'. rewrite Hlast in Hlast'. contradiction.
  - split; [now right|]. split; [|split; [|split; assumption]].
    + intros Hlast'. rewrite Hlast in Hlast'. now destruct Hapart.
    + intros _. split; [exact Hui|].
      intros Hkind. rewrite Hui. now apply conclude_same_kind.
Qed.

End WithHost.

Lemma reachable_submit (h : Host) (w : World) (data : StockInput) (r : reply) :
  reachable h w -> reachable h (submit h w data r).
Proof.
  intros Hreach. unfold submit, handle_all.
  destruct r as [e|response body]; cbn [delivery foldl]; now repeat constructor.
Qed.

Lemma reachable_analysed : reachable enUS analysed.
Proof. apply reachable_submit. constructor. Qed.

Lemma analysed_serialized :
  serialize enUS (result (ui analysed)) = inr (formatResultForCopy enUS bbca).
Proof. vm_compute. reflexivity. Qed.

(** X6 at the first click on the copy button. *)
Lemma copy_and_request_apart_witness :
  shown (ui (handle enUS analysed Copy)) = shown (ui analysed).
Proof.
  exact (proj1 (copy_and_request_apart enUS analysed Copy reachable_analysed)
           eq_refl).
Defined.

(** X7 while the first request is in flight. *)
Lemma result_or_error_not_both_witness :
  (result (ui asking) = VNull \/ error (ui asking) = None) /\
  (loading (ui asking) = true <-> in_flight asking).
Proof.
  apply (result_or_error_not_both enUS asking).
  apply one_handle; [apply one_boot|].
  intros _ id t Hid. simpl in Hid. rewrite lookup_empty in Hid. discriminate Hid.
Defined.

(** X8 at a body that is an empty array. *)
Lemma body_not_an_object_witness :
  ui (submit enUS boot (query "BBCA") (Answered http_ok (Fulfilled (VArr [])))) =
  {| loading := false; result := VNull;
     error := Some "Failed to analyze stock"; copied := false |}.
Proof.
  apply (body_not_an_object enUS boot (query "BBCA") http_ok (VArr [])).
  intros props. discriminate.
Defined.


(** X10 at an [error] that is an object. *)
Lemma error_is_converted_witness :
  error (ui (submit enUS boot (query "BBCA")
               (Answered http_ok
                  (Fulfilled (VObj [("success", VBool false);
                                    ("error", VObj [("code", VStr "E1")])]))))) =
  Some "[object Object]".
Proof.
  exact (error_is_converted enUS boot (query "BBCA") http_ok
           (VObj [("success", VBool false); ("error", VObj [("code", VStr "E1")])])
           (VBool false) (VObj [("code", VStr "E1")])
           eq_refl eq_refl eq_refl eq_refl).
Defined.


(** X12 at the sample result. *)
Lemma copy_feedback_witness :
  ui (handle enUS (handle enUS analysed Copy)
        (WriteTextSettled (fresh analysed) (Fulfilled ()))) =
  set_copied true (ui analysed).
Proof.
  exact (proj1 (proj2 (proj2
    (copy_feedback enUS analysed (formatResultForCopy enUS bbca)
       reachable_analysed eq_refl analysed_serialized)))).
Defined.

(** X13 at the sample result. *)
Lemma second_copy_cut_short_witness :
  copied (ui (handle enUS
                (handle_all enUS analysed
                   [Copy; WriteTextSettled (fresh analysed) (Fulfilled ());
                    Copy; WriteTextSettled (S (S (fresh analysed))) (Fulfilled ())])
                (TimeoutFired (S (fresh analysed))))) = false.
Proof.
  exact (proj1 (proj2
    (second_copy_cut_short enUS analysed (formatResultForCopy enUS bbca)
       reachable_analysed eq_refl analysed_serialized))).
Defined.

(** X14 at the sample result. *)
Lemma clipboard_gets_the_report_witness :
  tasks (handle enUS analysed Copy) !! fresh analysed =
  Some (OnWriteText (formatResultForCopy enUS bbca) (written enUS)).
Proof.
  exact (proj2
    (clipboard_gets_the_report enUS boot (query "BBCA") http_ok
       (VObj [("success", VBool true); ("data", of_StockAnalysisResult bbca)])
       bbca eq_refl eq_refl)).
Defined.

(** X15 after a copy that the clipboard refuses. *)
Lemma nothing_escapes_witness :
  unhandled (handle enUS (handle enUS analysed Copy)
               (WriteTextSettled (fresh analysed) (Rejected (Error "denied")))) = [].
Proof.
  apply (nothing_escapes enUS).
  apply reachable_handle, reachable_handle, reachable_analysed.
Defined.

(** C7 at the call that the effect makes at the first render: a click on
    the copy button, a render with the same ticker and the response
    without its body leave the state cleared. *)
Lemma cleared_until_outcome_witness :
  cleared (ui (handle_all enUS (handle enUS boot (Render (Str "BBCA")))
                 [Copy; Render (Str "BBCA"); FetchSettled 0 (Fulfilled http_ok)])).
Proof.
  refine (proj1 (proj2 (cleared_until_outcome enUS) boot (Render (Str "BBCA"))
                   [Copy; Render (Str "BBCA"); FetchSettled 0 (Fulfilled http_ok)]
                   _ _ _ _)).
  - constructor.
  - intros id t Ht. simpl in Ht. now rewrite lookup_empty in Ht.
  - reflexivity.
  - vm_compute. reflexivity.
Defined.

Lemma analysed_copy_pending :
  is_Some (tasks (handle enUS analysed Copy) !! fresh analysed).
Proof.
  rewrite handle_Copy.
  replace (ToBoolean (result (ui analysed))) with true by (vm_compute; reflexivity).
  rewrite analysed_serialized. cbn [tasks suspend].
  rewrite lookup_insert_eq. eauto.
Qed.

(** C9 with a result on the screen: the click issues the write, the
    clipboard refuses it, and the only trace is one line of the console. *)
Lemma copy_failure_swallowed_witness :
  let w1 := handle enUS analysed Copy in
  let w2 := handle enUS w1
              (WriteTextSettled (fresh analysed) (Rejected (Error "denied"))) in
  is_Some (tasks w1 !! fresh analysed) /\
  ui w1 = ui analysed /\
  ui w2 = ui analysed /\
  unhandled w2 = unhandled analysed /\
  console w2 = (console analysed ++ [("Failed to copy:", Error "denied")])%list.
Proof.
  pose proof (copy_failure_swallowed enUS analysed reachable_analysed)
    as (Hclick & _ & _ & Hrefused).
  destruct (Hrefused (Error "denied")) as (Hui & Hunhandled & _ & Hlog).
  split; [exact analysed_copy_pending|].
  split; [exact Hclick|]. split; [exact Hui|]. split; [exact Hunhandled|].
  exact (Hlog analysed_copy_pending).
Defined.

End LifecycleFacts.

(** ** The page *)

Module ViewFacts.
Import JS Serializer Orchestrator View Lifecycle OrchestratorFacts.

Section WithHost.
Variable h : Host.

Lemma ui_submit (w : World) (data : StockInput) (r : reply) :
  ui (submit h w data r) = conclude (verdict h r) (begin (ui w)).
Proof. now rewrite submit_concludes. Qed.

(** X16: in every reachable world where [loading] is true, a request is
    in flight, neither a result nor an error is held, and the page is the
    title, the form and the spinner, nothing else. *)
Theorem spinner_shown_alone (selectedStock : prop) (w : World) :
  reachable h w -> loading (ui w) = true ->
  in_flight w /\ result (ui w) = VNull /\ error (ui w) = None /\
  exists spinning,
    spinner (ui w) = [spinning] /\
    view h selectedStock (ui w) =
    inr (Element "div" [("className", Literal "container")]
           [title; form selectedStock (ui w); spinning]).
Proof.
  intros Hreach Hloading.
  destruct (LifecycleFacts.spinner_invariant h w Hreach Hloading)
    as [(_ & Hresult & Herror) Hflight].
  repeat (split; [assumption|]).
  unfold view, result_block, page, spinner, error_card.
  rewrite Hresult, Herror, Hloading. simpl. eexists. split; reflexivity.
Qed.

(** X17: [setResult(json.data)] stores what came, and the render reads
    [result.marketData.harga] and [result.calculated.targetRealistis1]
    without a guard: after a success whose truthy [data] has no
    [marketData] (or a null one) the render of the component throws the
    [TypeError] of reading [harga]; when [marketData] is there and
    [calculated] is missing or null, that of reading [targetRealistis1]. *)
Theorem render_throws_on_partial_data
    (selectedStock : prop) (w : World) (data : StockInput) (r : reply)
    (d md c : value) :
  verdict h r = inr d -> ToBoolean d = true ->
  Get h d "marketData" = inr md -> Get h d "calculated" = inr c ->
  (md = VUndefined \/ md = VNull) \/ (c = VUndefined \/ c = VNull) ->
  view h selectedStock (ui (submit h w data r)) =
  inl (Error (match md with
              | VUndefined | VNull => cannot_read h md "harga"
              | _ => cannot_read h c "targetRealistis1"
              end)).
Proof.
  intros Hverdict Htruthy Hmd Hc Hmissing.
  rewrite ui_submit, Hverdict. unfold view, result_block.
  change (result (conclude (inr d) (begin (ui w)))) with d.
  rewrite Htruthy, Hmd, Hc.
  assert (Hsb : exists sb, Get h d "stockbitData" = inr sb)
    by apply (Get_defined h d "marketData" "stockbitData" md Hmd).
  destruct Hsb as [sb ->]. simpl and_then.
  destruct Hmissing as [[-> | ->]|[-> | ->]]; try reflexivity;
    destruct md; simpl; try reflexivity;
    destruct (own _ _); reflexivity.
Qed.



(** X20: a failure whose message is the empty string (an [Error] thrown
    without message, or an [error] field holding an empty array) is stored
    as [""], which [{error && ...}] takes for no error: the page is the
    title and the form alone, with nothing telling that the call failed. *)
Theorem empty_message_shows_nothing
    (selectedStock : prop) (w : World) (data : StockInput) (r : reply) :
  verdict h r = inl (Error "") ->
  let st := ui (submit h w data r) in
  shown st = (false, VNull, Some "") /\
  view h selectedStock st =
  inr (Element "div" [("className", Literal "container")]
         [title; form selectedStock st]).
Proof.
  intros Hverdict st. subst st. rewrite ui_submit, Hverdict.
  split; reflexivity.
Qed.

End WithHost.

(** X16 while the first request is in flight. *)
Lemma spinner_shown_alone_witness :
  in_flight asking /\ result (ui asking) = VNull /\ error (ui asking) = None /\
  exists spinning,
    spinner (ui asking) = [spinning] /\
    view enUS (Str "BBCA") (ui asking) =
    inr (Element "div" [("className", Literal "container")]
           [title; form (Str "BBCA") (ui asking); spinning]).
Proof.
  apply (spinner_shown_alone enUS (Str "BBCA") asking); [|reflexivity].
  apply reachable_handle, reachable_boot.
Defined.

(** X17 at [data: {}]. *)
Lemma render_throws_on_partial_data_witness :
  view enUS Absent (ui (submit enUS boot (query "BBCA") (succeeded (VObj [])))) =
  inl (Error (cannot_read enUS VUndefined "harga")).
Proof.
  exact (render_throws_on_partial_data enUS Absent boot (query "BBCA")
           (succeeded (VObj [])) (VObj []) VUndefined VUndefined
           eq_refl eq_refl eq_refl eq_refl (or_introl (or_introl eq_refl))).
Defined.



(** X20 at [error: []]. *)
Lemma empty_message_shows_nothing_witness :
  let st := ui (submit enUS boot (query "BBCA")
                  (Answered http_ok
                     (Fulfilled (VObj [("success", VBool false);
                                       ("error", VArr [])])))) in
  shown st = (false, VNull, Some "") /\
  view enUS Absent st =
  inr (Element "div" [("className", Literal "container")]
         [title; form Absent st]).
Proof.
  exact (empty_message_shows_nothing enUS Absent boot (query "BBCA")
           (Answered http_ok
              (Fulfilled (VObj [("success", VBool false); ("error", VArr [])])))
           eq_refl).
Defined.

(** C10, counterexample: BBCA is submitted, then BBRI; BBRI fails first,
    then BBCA succeeds with its analysis: the page shows the analysis of
    BBCA under the error of BBRI, a card that BBCA alone does not show. *)
Lemma last_response_shares_the_screen :
  let mixed :=
    ui (handle_all enUS boot
          ([Submit (query "BBCA"); Submit (query "BBRI")] ++
           delivery 1 (failed "Emiten not found") ++
           delivery 0 (succeeded (of_StockAnalysisResult bbca)))) in
  let alone :=
    ui (submit enUS boot (query "BBCA") (succeeded (of_StockAnalysisResult bbca))) in
  shown mixed = (false, of_StockAnalysisResult bbca, Some "Emiten not found") /\
  shown alone = (false, of_StockAnalysisResult bbca, None) /\
  (exists failure card,
     error_card mixed = [failure] /\
     view enUS Absent mixed =
     inr (Element "div" [("className", Literal "container")]
            [title; form Absent mixed; failure; card]) /\
     view enUS Absent alone =
     inr (Element "div" [("className", Literal "container")]
            [title; form Absent alone; card])) /\
  ~ last_resolved_wins enUS.
Proof.
  intros mixed alone.
  split; [vm_compute; reflexivity|]. split; [vm_compute; reflexivity|]. split.
  - exists (hd title (error_card mixed)),
           (hd title (match result_block enUS alone with
                      | inr cards => cards
                      | inl _ => []
                      end)).
    subst mixed alone. split; [|split]; vm_compute; reflexivity.
  - intros Hwins.
    specialize (Hwins (query "BBCA") (query "BBRI")
                  (succeeded (of_StockAnalysisResult bbca))
                  (failed "Emiten not found")).
    vm_compute in Hwins. discriminate Hwins.
Qed.

(** C10 at a second call, made by the effect, between the response of the
    first and its body: BBCA is submitted and answered, BBRI is selected in
    the sidebar, answered and concluded, then the body of BBCA comes; the
    analysis of BBCA, issued first and resolved last, is what is shown,
    and the page renders. *)
Lemma overlapping_calls_both_conclude_witness :
  let bbca_body := VObj [("success", VBool true);
                         ("data", of_StockAnalysisResult bbca)] in
  let bbri_body := VObj [("success", VBool true);
                         ("data", of_StockAnalysisResult bbri)] in
  let w' :=
    handle_all enUS boot
      ([Submit (query "BBCA")] ++ [FetchSettled 0 (Fulfilled http_ok)] ++
       [Render (Str "BBRI")] ++
       [FetchSettled 1 (Fulfilled http_ok); JsonSettled 1 (Fulfilled bbri_body);
        JsonSettled 0 (Fulfilled bbca_body)]) in
  (ui w' =
   conclude (verdict enUS (succeeded (of_StockAnalysisResult bbca)))
     (conclude (verdict enUS (succeeded (of_StockAnalysisResult bbri)))
        (begin (ui boot))) /\
   shown (ui w') =
   shown (conclude (verdict enUS (succeeded (of_StockAnalysisResult bbca)))
            (begin (ui boot)))) /\
  shown (ui w') = (false, of_StockAnalysisResult bbca, None) /\
  exists page, view enUS (Str "BBRI") (ui w') = inr page.
Proof.
  intros bbca_body bbri_body w'. split; [|split].
  - pose proof (LifecycleFacts.overlapping_calls_both_conclude enUS boot
                  (Submit (query "BBCA")) (Render (Str "BBRI"))
                  (succeeded (of_StockAnalysisResult bbca))
                  (succeeded (of_StockAnalysisResult bbri))
                  [FetchSettled 0 (Fulfilled http_ok)]
                  [JsonSettled 0 (Fulfilled bbca_body)]
                  [FetchSettled 1 (Fulfilled http_ok);
                   JsonSettled 1 (Fulfilled bbri_body);
                   JsonSettled 0 (Fulfilled bbca_body)]) as H.
    destruct H as (_ & Hlast & _).
    + reflexivity.
    + reflexivity.
    + discriminate.
    + vm_compute. reflexivity.
    + apply interleaved_right, interleaved_right, interleaved_left,
        interleaved_nil.
    + destruct (Hlast eq_refl) as [Hui Hshown].
      split; [exact Hui | exact (Hshown eq_refl)].
  - subst w' bbca_body bbri_body. vm_compute. reflexivity.
  - exists (page (Str "BBRI") (ui w')
              (match result_block enUS (ui w') with
               | inr cards => cards
               | inl _ => []
               end)).
    subst w' bbca_body bbri_body. vm_compute. reflexivity.
Defined.

End ViewFacts.
